(** * Verification of the R2 backup gateway (src/gateway/sync.ts, src/gateway/r2.ts)

    The development embeds the TypeScript sources shallowly:

    - JavaScript strings are [string]s; every [ascii] stands for one code
      unit below 256, so the only non-ASCII character that
      [String.prototype.trim] strips in this range is U+00A0.
    - the sandbox is an arbitrary state-passing environment: each call
      either returns a value or throws, and may change the world;
    - an [async] function is a computation in a state-and-exception monad
      over that world, which also records the calls made on the sandbox
      and the lines printed on the console;
    - numbers (time-outs, the poll interval, the poll budget) are integers,
      and time is counted in [setTimeout] delays, not measured. *)

From Stdlib Require Import String Ascii List ZArith Bool Lia.
Import ListNotations.
Open Scope string_scope.

(** ** JavaScript string primitives used by the gateway *)

Module JsString.

(** [hay.includes(needle)] *)
Fixpoint includes (needle hay : string) : bool :=
  if prefix needle hay then true
  else match hay with
       | EmptyString => false
       | String _ rest => includes needle rest
       end.

(** [parts.join(sep)] *)
Fixpoint join (sep : string) (parts : list string) : string :=
  match parts with
  | [] => ""
  | [p] => p
  | p :: rest => p ++ sep ++ join sep rest
  end.

(** WhiteSpace and LineTerminator code units below 256: TAB, LF, VT, FF,
    CR, SP and NBSP. *)
Definition isWhiteSpace (c : ascii) : bool :=
  let n := nat_of_ascii c in
  ((9 <=? n)%nat && (n <=? 13)%nat) || (n =? 32)%nat || (n =? 160)%nat.

Fixpoint trimStart (s : string) : string :=
  match s with
  | EmptyString => EmptyString
  | String c rest => if isWhiteSpace c then trimStart rest else s
  end.

Fixpoint trimEnd (s : string) : string :=
  match s with
  | EmptyString => EmptyString
  | String c rest =>
      match trimEnd rest with
      | EmptyString => if isWhiteSpace c then EmptyString else String c EmptyString
      | kept => String c kept
      end
  end.

(** [s.trim()] *)
Definition trim (s : string) : string := trimEnd (trimStart s).

(** The regular-expression class [\d]. *)
Definition isDigit (c : ascii) : bool :=
  let n := nat_of_ascii c in (48 <=? n)%nat && (n <=? 57)%nat.

Definition isHyphen (c : ascii) : bool := (nat_of_ascii c =? 45)%nat.

(** [s.match(/^\d{4}-\d{2}-\d{2}/)] is not null. *)
Definition matchesDatePrefix (s : string) : bool :=
  match s with
  | String y1 (String y2 (String y3 (String y4 (String h1
      (String m1 (String m2 (String h2 (String d1 (String d2 _))))))))) =>
      isDigit y1 && isDigit y2 && isDigit y3 && isDigit y4 && isHyphen h1
      && isDigit m1 && isDigit m2 && isHyphen h2 && isDigit d1 && isDigit d2
  | _ => false
  end.

(** The shorter pattern [/^\d{4}-\d{2}/]: four digits, a hyphen and two
    digits.  The sources do not use it; it is the pattern the prose
    description of the polling loop names. *)
Definition matchesYearMonthPrefix (s : string) : bool :=
  match s with
  | String y1 (String y2 (String y3 (String y4 (String h1
      (String m1 (String m2 _)))))) =>
      isDigit y1 && isDigit y2 && isDigit y3 && isDigit y4 && isHyphen h1
      && isDigit m1 && isDigit m2
  | _ => false
  end.

(** Truthiness of a string value. *)
Definition nonEmpty (s : string) : bool :=
  match s with EmptyString => false | String _ _ => true end.

(** Truthiness of an optional string ([undefined] and [''] are falsy). *)
Definition truthy (o : option string) : bool :=
  match o with Some s => nonEmpty s | None => false end.

(** [o || ''] *)
Definition orEmpty (o : option string) : string :=
  if truthy o then match o with Some s => s | None => "" end else "".

(** An optional string inside a template literal. *)
Definition interpolate (o : option string) : string :=
  match o with Some s => s | None => "undefined" end.

Definition firstChar (s : string) : option ascii :=
  match s with EmptyString => None | String c _ => Some c end.

Fixpoint lastChar (s : string) : option ascii :=
  match s with
  | EmptyString => None
  | String c EmptyString => Some c
  | String _ rest => lastChar rest
  end.

Definition notWhiteSpace (o : option ascii) : Prop :=
  match o with Some c => isWhiteSpace c = false | None => True end.

(** [s] begins with four digits, a hyphen, two digits, a hyphen and two
    digits (stated without the matcher). *)
Definition beginsWithDate (s : string) : Prop :=
  exists y1 y2 y3 y4 m1 m2 d1 d2 rest,
    s = String y1 (String y2 (String y3 (String y4 (String "-"
          (String m1 (String m2 (String "-" (String d1 (String d2 rest)))))))))
    /\ Forall (fun c => isDigit c = true) [y1; y2; y3; y4; m1; m2; d1; d2].

End JsString.

(** ** Configuration constants (src/config) *)

(** Modelled from the spec: the constant [R2_MOUNT_PATH] is imported from
    [../config], which is not among the sources.  Its value is fixed by the
    test of the copy command, which expects the remote config path
    [/data/moltbot/openclaw/]. *)
Definition R2_MOUNT_PATH : string := "/data/moltbot".

(** ** sync.ts: the compound copy command *)

Definition configMirrorCmd (configDir : string) : string :=
  "rsync -r --no-times --delete --exclude='*.lock' --exclude='*.log' --exclude='*.tmp' --exclude='.git' "
    ++ configDir ++ "/ " ++ R2_MOUNT_PATH ++ "/openclaw/".

Definition workspaceStep : string :=
  "([ -d /root/clawd ] && rsync -r --no-times --delete --exclude='skills' --exclude='.git' /root/clawd/ "
    ++ R2_MOUNT_PATH ++ "/workspace/ || true)".

Definition skillsStep : string :=
  "([ -d /root/clawd/skills ] && rsync -r --no-times --delete /root/clawd/skills/ "
    ++ R2_MOUNT_PATH ++ "/skills/ || true)".

Definition markerWriteCmd : string :=
  "date -Iseconds > " ++ R2_MOUNT_PATH ++ "/.last-sync".

Definition buildSyncCmd (configDir : string) : string :=
  JsString.join " && "
    [ configMirrorCmd configDir; workspaceStep; skillsStep; markerWriteCmd ].

(** ** The shell's reading of the compound command

    A small model of the POSIX shell's AND-OR lists: [&&] and [||] have the
    same precedence and associate to the left, a parenthesised list runs in
    a subshell and yields the status of the list, and [true] is the builtin
    that always succeeds.  A simple command (with its redirection) is run
    by the environment, which reports an exit status. *)

Module Shell.

Inductive sh : Type :=
| Simple (text : string)
| TrueBuiltin
| AndIf (a b : sh)
| OrIf (a b : sh)
| Subshell (a : sh).

Fixpoint render (c : sh) : string :=
  match c with
  | Simple text => text
  | TrueBuiltin => "true"
  | AndIf a b => render a ++ " && " ++ render b
  | OrIf a b => render a ++ " || " ++ render b
  | Subshell a => "(" ++ render a ++ ")"
  end.

(** The machine on which the command runs, with the simple commands
    executed so far and their exit statuses.  [run text s] is the exit
    status of the simple command [text] started in state [s], and the
    state it leaves. *)
Record Machine (S : Type) : Type := {
  machine : S;
  executed : list (string * Z)
}.
Arguments machine {S} _.
Arguments executed {S} _.

Section Exec.
Context {S : Type} (run : string -> S -> Z * S).

Fixpoint exec (c : sh) (m : Machine S) : Z * Machine S :=
  match c with
  | Simple text =>
      let (status, s') := run text (machine m) in
      (status, {| machine := s'; executed := (executed m ++ [(text, status)])%list |})
  | TrueBuiltin => (0%Z, m)
  | AndIf a b =>
      let (status, m') := exec a m in
      if (status =? 0)%Z then exec b m' else (status, m')
  | OrIf a b =>
      let (status, m') := exec a m in
      if (status =? 0)%Z then (status, m') else exec b m'
  | Subshell a => exec a m
  end.

Definition boot (s : S) : Machine S := {| machine := s; executed := [] |}.

End Exec.

Definition workspaceTest : string := "[ -d /root/clawd ]".
Definition workspaceMirror : string :=
  "rsync -r --no-times --delete --exclude='skills' --exclude='.git' /root/clawd/ "
    ++ R2_MOUNT_PATH ++ "/workspace/".
Definition skillsTest : string := "[ -d /root/clawd/skills ]".
Definition skillsMirror : string :=
  "rsync -r --no-times --delete /root/clawd/skills/ " ++ R2_MOUNT_PATH ++ "/skills/".

Definition step1 (configDir : string) : sh := Simple (configMirrorCmd configDir).
Definition step2 : sh :=
  Subshell (OrIf (AndIf (Simple workspaceTest) (Simple workspaceMirror)) TrueBuiltin).
Definition step3 : sh :=
  Subshell (OrIf (AndIf (Simple skillsTest) (Simple skillsMirror)) TrueBuiltin).
Definition step4 : sh := Simple markerWriteCmd.

(** The command of [buildSyncCmd], as the shell parses it. *)
Definition syncScript (configDir : string) : sh :=
  AndIf (AndIf (AndIf (step1 configDir) step2) step3) step4.

(** A machine without state on which every simple command succeeds, except
    the workspace mirror, which exits with rsync's status 23. *)
Definition workspaceMirrorFails (text : string) (_ : unit) : Z * unit :=
  if (text =? workspaceMirror)%string then (23%Z, tt) else (0%Z, tt).

(** Whether [text] was executed. *)
Definition ran {S : Type} (text : string) (m : Machine S) : Prop :=
  In text (map fst (executed m)).

End Shell.

(** ** The sandbox interface and asynchronous computations *)

(** A thrown value: an [Error] with its message, or any other value,
    of which only its printed form matters. *)
Inductive Thrown : Type :=
| ErrorObject (message : string)
| OtherValue (shown : string).

Inductive Outcome (A : Type) : Type :=
| Returns (a : A)
| Throws (e : Thrown).
Arguments Returns {A} a.
Arguments Throws {A} e.

(** [err instanceof Error ? err.message : String(err)] *)
Definition errorMessage (e : Thrown) : string :=
  match e with ErrorObject message => message | OtherValue shown => shown end.

(** [err instanceof Error ? err.message : 'Unknown error'] *)
Definition errorDetails (e : Thrown) : string :=
  match e with ErrorObject message => message | OtherValue _ => "Unknown error" end.

(** A thrown value as the console prints it. *)
Definition showThrown (e : Thrown) : string :=
  match e with ErrorObject message => "Error: " ++ message | OtherValue shown => shown end.

Definition showBool (b : bool) : string := if b then "true" else "false".

Record Logs : Type := {
  stdout : option string;
  stderr : option string
}.

Record MountOptions : Type := {
  endpoint : string;
  accessKeyId : option string;
  secretAccessKey : option string
}.

(** The bindings of [MoltbotEnv] that the gateway reads. *)
Record MoltbotEnv : Type := {
  R2_ACCESS_KEY_ID : option string;
  R2_SECRET_ACCESS_KEY : option string;
  CF_ACCOUNT_ID : option string
}.

(** The calls a computation makes on its environment, in order. *)
Inductive Event : Type :=
| StartProcess (cmd : string)
| WaitForProcess (timeoutMs : Z)
| GetLogs
| GetStatus
| MountBucket (bucket path : string) (options : MountOptions)
| SetTimeout (ms : Z).

(** A process handle: its [status] snapshot, its [getLogs] method and its
    optional [getStatus] method. *)
Record Process (W : Type) : Type := {
  status : string;
  getLogs : W -> Outcome Logs * W;
  getStatus : option (W -> Outcome string * W)
}.
Arguments status {W} _.
Arguments getLogs {W} _ _.
Arguments getStatus {W} _.

Record Sandbox (W : Type) : Type := {
  startProcess : string -> W -> Outcome (Process W) * W;
  mountBucket : string -> string -> MountOptions -> W -> Outcome unit * W
}.
Arguments startProcess {W} _ _ _.
Arguments mountBucket {W} _ _ _ _ _.

(** What the gateway imports from modules that are not among the sources,
    taken as parameters: [waitForProcess] of [./utils], which may change the
    world and may throw, and [getR2BucketName] of [../config].  [elapse] is
    what the passage of a [setTimeout] delay does to the world. *)
Record Imports (W : Type) : Type := {
  waitForProcess : Process W -> Z -> W -> Outcome unit * W;
  getR2BucketName : MoltbotEnv -> string;
  elapse : Z -> W -> W
}.
Arguments waitForProcess {W} _ _ _ _.
Arguments getR2BucketName {W} _ _.
Arguments elapse {W} _ _ _.

Record State (W : Type) : Type := {
  world : W;
  calls : list Event;
  console : list (list string)
}.
Arguments world {W} _.
Arguments calls {W} _.
Arguments console {W} _.

Definition Async (W A : Type) : Type := State W -> Outcome A * State W.

Definition ret {W A : Type} (a : A) : Async W A := fun st => (Returns a, st).

Definition bind {W A B : Type} (m : Async W A) (k : A -> Async W B) : Async W B :=
  fun st =>
    match m st with
    | (Returns a, st') => k a st'
    | (Throws e, st') => (Throws e, st')
    end.

(** [try { body } catch (err) { handler }] *)
Definition tryCatch {W A : Type} (body : Async W A) (handler : Thrown -> Async W A)
  : Async W A :=
  fun st =>
    match body st with
    | (Returns a, st') => (Returns a, st')
    | (Throws e, st') => handler e st'
    end.

(** Awaiting a call on the environment. *)
Definition await {W A : Type} (ev : Event) (call : W -> Outcome A * W) : Async W A :=
  fun st =>
    let (r, w') := call (world st) in
    (r, {| world := w'; calls := (calls st ++ [ev])%list; console := console st |}).

(** [console.log] and [console.error] *)
Definition log {W : Type} (line : list string) : Async W unit :=
  fun st =>
    (Returns tt,
     {| world := world st; calls := calls st; console := (console st ++ [line])%list |}).

Notation "x <- m ;; k" := (bind m (fun x => k))
  (at level 61, m at next level, right associativity).
Notation "m ;; k" := (bind m (fun _ => k))
  (at level 61, right associativity).

(** ** sync.ts: [runCommand] *)

Record CommandResult : Type := {
  cmd_stdout : string;
  cmd_stderr : string;
  cmd_status : string
}.

Definition runCommand {W : Type} (imports : Imports W) (sandbox : Sandbox W)
    (cmd : string) (timeoutMs : Z) : Async W CommandResult :=
  proc <- await (StartProcess cmd) (startProcess sandbox cmd) ;;
  await (WaitForProcess timeoutMs) (waitForProcess imports proc timeoutMs) ;;
  logs <- await GetLogs (getLogs proc) ;;
  current <- match getStatus proc with
        | Some fresh => await GetStatus fresh
        | None => ret (status proc)
        end ;;
  ret {| cmd_stdout := JsString.orEmpty (stdout logs);
         cmd_stderr := JsString.orEmpty (stderr logs);
         cmd_status := current |}.

(** ** r2.ts *)

Definition dquote : string := String "034"%char EmptyString.

Definition mountProbeCmd : string :=
  "mount | grep -q " ++ dquote ++ "s3fs on " ++ R2_MOUNT_PATH ++ dquote
    ++ " && echo mounted || echo not-mounted".

(** [!!(logs.stdout && logs.stdout.includes('mounted') &&
        !logs.stdout.includes('not-mounted'))] *)
Definition reportsMounted (logs : Logs) : bool :=
  match stdout logs with
  | Some out =>
      JsString.nonEmpty out && JsString.includes "mounted" out
      && negb (JsString.includes "not-mounted" out)
  | None => false
  end.

(** [logs.stdout?.slice(0, 100)] as the console prints it *)
Definition stdoutHead (logs : Logs) : string :=
  match stdout logs with
  | Some out => substring 0 100 out
  | None => "undefined"
  end.

Definition isR2Mounted {W : Type} (imports : Imports W) (sandbox : Sandbox W)
  : Async W bool :=
  tryCatch
    (proc <- await (StartProcess mountProbeCmd) (startProcess sandbox mountProbeCmd) ;;
     await (WaitForProcess 5000) (waitForProcess imports proc 5000%Z) ;;
     logs <- await GetLogs (getLogs proc) ;;
     let mounted := reportsMounted logs in
     log ["isR2Mounted check:"; showBool mounted; "stdout:"; stdoutHead logs] ;;
     ret mounted)
    (fun err =>
       log ["isR2Mounted error:"; showThrown err] ;;
       ret false).

Definition credentialsMissing (env : MoltbotEnv) : bool :=
  negb (JsString.truthy (R2_ACCESS_KEY_ID env))
  || negb (JsString.truthy (R2_SECRET_ACCESS_KEY env))
  || negb (JsString.truthy (CF_ACCOUNT_ID env)).

Definition notConfiguredLine : list string :=
  ["R2 storage not configured (missing R2_ACCESS_KEY_ID, R2_SECRET_ACCESS_KEY, or CF_ACCOUNT_ID)"].

Definition mountOptions (env : MoltbotEnv) : MountOptions :=
  {| endpoint := "https://" ++ JsString.interpolate (CF_ACCOUNT_ID env)
                   ++ ".r2.cloudflarestorage.com";
     accessKeyId := R2_ACCESS_KEY_ID env;
     secretAccessKey := R2_SECRET_ACCESS_KEY env |}.

Definition mountR2Storage {W : Type} (imports : Imports W) (sandbox : Sandbox W)
    (env : MoltbotEnv) : Async W bool :=
  if credentialsMissing env then
    log notConfiguredLine ;;
    ret false
  else
    already <- isR2Mounted imports sandbox ;;
    if already then
      log ["R2 bucket already mounted at"; R2_MOUNT_PATH] ;;
      ret true
    else
      let bucketName := getR2BucketName imports env in
      tryCatch
        (log ["Mounting R2 bucket"; bucketName; "at"; R2_MOUNT_PATH] ;;
         await (MountBucket bucketName R2_MOUNT_PATH (mountOptions env))
               (mountBucket sandbox bucketName R2_MOUNT_PATH (mountOptions env)) ;;
         log ["R2 bucket mounted successfully - moltbot data will persist across sessions"] ;;
         ret true)
        (fun err =>
           let errorMessage := errorMessage err in
           log ["R2 mount error:"; errorMessage] ;;
           recheck <- isR2Mounted imports sandbox ;;
           if recheck then
             log ["R2 bucket is mounted despite error"] ;;
             ret true
           else
             log ["Failed to mount R2 bucket:"; showThrown err] ;;
             ret false).

(** ** sync.ts: [syncToR2] *)

Record SyncResult : Type := {
  success : bool;
  lastSync : option string;
  error : option string;
  details : option string
}.

Definition failure (message : string) (more : option string) : SyncResult :=
  {| success := false; lastSync := None; error := Some message; details := more |}.

Definition synced (timestamp : string) : SyncResult :=
  {| success := true; lastSync := Some timestamp; error := None; details := None |}.

Definition notConfigured : SyncResult := failure "R2 storage is not configured" None.
Definition mountFailed : SyncResult := failure "Failed to mount R2 storage" None.
Definition noConfigFile : SyncResult :=
  failure "Sync aborted: no config file found"
    (Some "Neither openclaw.json nor clawdbot.json found in config directory.").
Definition verifyFailed (err : Thrown) : SyncResult :=
  failure "Failed to verify source files" (Some (errorDetails err)).
Definition launchFailed (err : Thrown) : SyncResult :=
  failure "Sync error" (Some (errorDetails err)).
Definition timedOut : SyncResult :=
  failure "Sync timed out" (Some "Timestamp file not created within 3 minutes").

Definition primaryProbeCmd : string :=
  "test -f /root/.openclaw/openclaw.json && echo exists".
Definition legacyProbeCmd : string :=
  "test -f /root/.clawdbot/clawdbot.json && echo exists".
Definition markerReadCmd : string := "cat " ++ R2_MOUNT_PATH ++ "/.last-sync".

(** Lines 120-151 of sync.ts: the layout discovery.  [inl] is an early
    return of [syncToR2], [inr] the value left in [configDir]. *)
Definition detectConfigDir {W : Type} (imports : Imports W) (sandbox : Sandbox W)
  : Async W (SyncResult + string) :=
  tryCatch
    (checkNew <- runCommand imports sandbox primaryProbeCmd 5000%Z ;;
     if JsString.includes "exists" (cmd_stdout checkNew) then
       ret (inr "/root/.openclaw")
     else
       checkLegacy <- runCommand imports sandbox legacyProbeCmd 5000%Z ;;
       if JsString.includes "exists" (cmd_stdout checkLegacy) then
         ret (inr "/root/.clawdbot")
       else
         ret (inl noConfigFile))
    (fun err => ret (inl (verifyFailed err))).

(** Lines 155-163: starting the copy command.  [Some] is an early return. *)
Definition launchSync {W : Type} (sandbox : Sandbox W) (syncCmd : string)
  : Async W (option SyncResult) :=
  tryCatch
    (await (StartProcess syncCmd) (startProcess sandbox syncCmd) ;;
     ret None)
    (fun err => ret (Some (launchFailed err))).

(** [await new Promise((r) => setTimeout(r, ms))] *)
Definition sleep {W : Type} (imports : Imports W) (ms : Z) : Async W unit :=
  await (SetTimeout ms) (fun w => (Returns tt, elapse imports ms w)).

(** The success test of line 172 on the trimmed marker content. *)
Definition validTimestamp (lastSync : string) : bool :=
  JsString.nonEmpty lastSync && JsString.matchesDatePrefix lastSync.

(** Lines 168-177: the body of the polling loop.  [Some] is the [return]
    of line 173, [None] falls through to the next iteration. *)
Definition pollOnce {W : Type} (imports : Imports W) (sandbox : Sandbox W)
    (pollIntervalMs : Z) : Async W (option SyncResult) :=
  sleep imports pollIntervalMs ;;
  tryCatch
    (ts <- runCommand imports sandbox markerReadCmd 10000%Z ;;
     let lastSync := JsString.trim (cmd_stdout ts) in
     if validTimestamp lastSync then ret (Some (synced lastSync)) else ret None)
    (fun _ => ret None).

(** Lines 166-183: [for (let i = 0; i < maxPolls; i++)] followed by the
    time-out result; [remaining] is the number of iterations left. *)
Fixpoint pollLoop {W : Type} (imports : Imports W) (sandbox : Sandbox W)
    (pollIntervalMs : Z) (remaining : nat) : Async W SyncResult :=
  match remaining with
  | O => ret timedOut
  | S remaining' =>
      found <- pollOnce imports sandbox pollIntervalMs ;;
      match found with
      | Some result => ret result
      | None => pollLoop imports sandbox pollIntervalMs remaining'
      end
  end.

Definition syncToR2 {W : Type} (imports : Imports W) (sandbox : Sandbox W)
    (env : MoltbotEnv) (pollIntervalMs maxPolls : Z) : Async W SyncResult :=
  if credentialsMissing env then ret notConfigured
  else
    mounted <- mountR2Storage imports sandbox env ;;
    if negb mounted then ret mountFailed
    else
      layout <- detectConfigDir imports sandbox ;;
      match layout with
      | inl aborted => ret aborted
      | inr configDir =>
          let syncCmd := buildSyncCmd configDir in
          launched <- launchSync sandbox syncCmd ;;
          match launched with
          | Some failed => ret failed
          | None => pollLoop imports sandbox pollIntervalMs (Z.to_nat maxPolls)
          end
      end.

Definition defaultPollIntervalMs : Z := 2000.
Definition defaultMaxPolls : Z := 90.

(** ** sync.ts: [fireAndForgetSync] *)

(** Lines 63-83: the layout discovery of the cron handler.  [None] is the
    early [return] of line 81, [Some] the value left in [configDir]. *)
Definition cronConfigDir {W : Type} (imports : Imports W) (sandbox : Sandbox W)
  : Async W (option string) :=
  checkNew <- runCommand imports sandbox primaryProbeCmd 5000%Z ;;
  if JsString.includes "exists" (cmd_stdout checkNew) then
    ret (Some "/root/.openclaw")
  else
    checkLegacy <- runCommand imports sandbox legacyProbeCmd 5000%Z ;;
    if JsString.includes "exists" (cmd_stdout checkLegacy) then
      ret (Some "/root/.clawdbot")
    else
      log ["[cron] No config file found, skipping"] ;;
      ret None.

Definition fireAndForgetSync {W : Type} (imports : Imports W) (sandbox : Sandbox W)
    (env : MoltbotEnv) : Async W unit :=
  if credentialsMissing env then
    log ["[cron] R2 not configured, skipping"]
  else
    mounted <- mountR2Storage imports sandbox env ;;
    if negb mounted then
      log ["[cron] R2 mount failed, skipping"]
    else
      found <- cronConfigDir imports sandbox ;;
      match found with
      | None => ret tt
      | Some configDir =>
          await (StartProcess (buildSyncCmd configDir))
                (startProcess sandbox (buildSyncCmd configDir)) ;;
          log ["[cron] Sync command started (fire-and-forget)"]
      end.

(** ** Observations on runs *)

Definition fresh {W : Type} (w : W) : State W :=
  {| world := w; calls := []; console := [] |}.

(** The state after [k] polls that all fell through. *)
Fixpoint afterPolls {W : Type} (imports : Imports W) (sandbox : Sandbox W)
    (pollIntervalMs : Z) (k : nat) (st : State W) : State W :=
  match k with
  | O => st
  | S k' =>
      snd (pollOnce imports sandbox pollIntervalMs
             (afterPolls imports sandbox pollIntervalMs k' st))
  end.

Definition isSleep (ev : Event) : bool :=
  match ev with SetTimeout _ => true | _ => false end.

Definition isMountBucket (ev : Event) : bool :=
  match ev with MountBucket _ _ _ => true | _ => false end.

(** The command started by [ev], if [ev] starts one. *)
Definition startedCmd (ev : Event) : option string :=
  match ev with StartProcess c => Some c | _ => None end.

Definition startedCmds (evs : list Event) : list string :=
  flat_map (fun ev => match startedCmd ev with Some c => [c] | None => [] end) evs.

(** The calls of [st'] are those of [st] followed by [evs]. *)
Definition callsSince {W : Type} (st st' : State W) (evs : list Event) : Prop :=
  calls st' = (calls st ++ evs)%list.

(** The shape of a well-formed [SyncResult]. *)
Definition wellFormed (r : SyncResult) : Prop :=
  if success r then
    (exists v, lastSync r = Some v
               /\ v <> ""
               /\ JsString.notWhiteSpace (JsString.firstChar v)
               /\ JsString.notWhiteSpace (JsString.lastChar v)
               /\ JsString.beginsWithDate v)
    /\ error r = None
  else
    (exists message, error r = Some message) /\ lastSync r = None.

(** An optional marker value: what a settled marker read lets the loop
    observe. *)
Definition markerObserved (read : Outcome CommandResult) : option string :=
  match read with
  | Returns ts =>
      let lastSync := JsString.trim (cmd_stdout ts) in
      if validTimestamp lastSync then Some lastSync else None
  | Throws _ => None
  end.

(** The marker read of one iteration, and the state in which it starts. *)
Definition markerRead {W : Type} (imports : Imports W) (sandbox : Sandbox W)
  : Async W CommandResult :=
  runCommand imports sandbox markerReadCmd 10000%Z.

Definition slept {W : Type} (imports : Imports W) (ms : Z) (st : State W) : State W :=
  snd (sleep imports ms st).

(** The state in which the polling loop of [syncToR2] starts, when the run
    gets that far: credentials present, storage mounted, a layout found and
    the copy command started. *)
Definition beforePolling {W : Type} (imports : Imports W) (sandbox : Sandbox W)
    (env : MoltbotEnv) (st : State W) : option (State W) :=
  if credentialsMissing env then None
  else
    match mountR2Storage imports sandbox env st with
    | (Returns true, st1) =>
        match detectConfigDir imports sandbox st1 with
        | (Returns (inr configDir), st2) =>
            match launchSync sandbox (buildSyncCmd configDir) st2 with
            | (Returns None, st0) => Some st0
            | _ => None
            end
        | _ => None
        end
    | _ => None
    end.

(** A computation that never throws and whose result satisfies [P]. *)
Definition settles {W A : Type} (P : A -> Prop) (m : Async W A) : Prop :=
  forall st, match fst (m st) with Returns a => P a | Throws _ => False end.

(** A computation whose result, when it returns one, satisfies [P]. *)
Definition ensures {W A : Type} (P : A -> Prop) (m : Async W A) : Prop :=
  forall st, match fst (m st) with Returns a => P a | Throws _ => True end.

(** A computation whose calls satisfy [Q], however it ends. *)
Definition emits {W A : Type} (Q : list Event -> Prop) (m : Async W A) : Prop :=
  forall st, exists evs, callsSince st (snd (m st)) evs /\ Q evs.

(** The shape of an early return. *)
Definition earlyOrValue {A : Type} (r : SyncResult + A) : Prop :=
  match r with inl result => wellFormed result | inr _ => True end.

Definition wellFormedIfAny (r : option SyncResult) : Prop :=
  match r with Some result => wellFormed result | None => True end.

(** Calls on a process handle, as opposed to calls on the sandbox. *)
Definition onHandle (ev : Event) : Prop :=
  match ev with
  | WaitForProcess _ | GetLogs | GetStatus => True
  | _ => False
  end.

(** [ev] does not start a copy command. *)
Definition notCopyLaunch (ev : Event) : Prop :=
  forall configDir, ev <> StartProcess (buildSyncCmd configDir).

(** [evs] holds exactly [k] polls: [k] delays of [pollIntervalMs] and [k]
    reads of the marker, and starts no other command. *)
Definition pollEvents (pollIntervalMs : Z) (k : nat) (evs : list Event) : Prop :=
  filter isSleep evs = repeat (SetTimeout pollIntervalMs) k
  /\ startedCmds evs = repeat markerReadCmd k.

(** The state in which [mountR2Storage] rechecks the mount table: the mount
    primitive, called in state [st1], has thrown [err] and left the world
    [w2], and the error has been logged. *)
Definition afterMountError {W : Type} (imports : Imports W) (env : MoltbotEnv)
    (err : Thrown) (st1 : State W) (w2 : W) : State W :=
  {| world := w2;
     calls := (calls st1
               ++ [MountBucket (getR2BucketName imports env) R2_MOUNT_PATH
                     (mountOptions env)])%list;
     console := ((console st1
                  ++ [["Mounting R2 bucket"; getR2BucketName imports env; "at";
                       R2_MOUNT_PATH]])
                 ++ [["R2 mount error:"; errorMessage err]])%list |}.

(** ** Further observations on runs *)

(** The number of calls of a kind. *)
Definition count (kind : Event -> bool) (evs : list Event) : nat :=
  length (filter kind evs).

(** The call of the mount primitive that [mountR2Storage] makes. *)
Definition mountCall {W : Type} (imports : Imports W) (env : MoltbotEnv) : Event :=
  MountBucket (getR2BucketName imports env) R2_MOUNT_PATH (mountOptions env).

(** The calls of one probe of the mount table: the probe command is
    started, then only its handle is used. *)
Definition probeCalls (evs : list Event) : Prop :=
  exists rest, evs = StartProcess mountProbeCmd :: rest /\ Forall onHandle rest.

(** The evidence on which [isR2Mounted] answers [true]: the probe command
    started, was waited for, gave its logs, and its output holds the word
    [mounted] but not [not-mounted]. *)
Definition probeEvidence {W : Type} (imports : Imports W) (sandbox : Sandbox W)
    (st : State W) : Prop :=
  exists proc w1 w2 logs w3 out,
    startProcess sandbox mountProbeCmd (world st) = (Returns proc, w1)
    /\ waitForProcess imports proc 5000%Z w1 = (Returns tt, w2)
    /\ getLogs proc w2 = (Returns logs, w3)
    /\ stdout logs = Some out
    /\ JsString.includes "mounted" out = true
    /\ JsString.includes "not-mounted" out = false.

(** The two copy commands the gateway can build. *)
Definition primaryCopyCmd : string := buildSyncCmd "/root/.openclaw".
Definition legacyCopyCmd : string := buildSyncCmd "/root/.clawdbot".

Definition isCopyLaunch (ev : Event) : bool :=
  match ev with
  | StartProcess c => (c =? primaryCopyCmd)%string || (c =? legacyCopyCmd)%string
  | _ => false
  end.

(** The calls a blocking sync may make. *)
Definition syncCall {W : Type} (imports : Imports W) (env : MoltbotEnv)
    (pollIntervalMs : Z) (ev : Event) : Prop :=
  match ev with
  | StartProcess c =>
      In c [mountProbeCmd; primaryProbeCmd; legacyProbeCmd; primaryCopyCmd;
            legacyCopyCmd; markerReadCmd]
  | MountBucket _ _ _ => ev = mountCall imports env
  | SetTimeout ms => ms = pollIntervalMs
  | WaitForProcess _ | GetLogs | GetStatus => True
  end.

(** The calls a fire-and-forget sync may make. *)
Definition cronCall {W : Type} (imports : Imports W) (env : MoltbotEnv)
    (ev : Event) : Prop :=
  match ev with
  | StartProcess c =>
      In c [mountProbeCmd; primaryProbeCmd; legacyProbeCmd; primaryCopyCmd; legacyCopyCmd]
  | MountBucket _ _ _ => ev = mountCall imports env
  | SetTimeout _ => False
  | WaitForProcess _ | GetLogs | GetStatus => True
  end.


(** All characters of [s] are white space. *)
Fixpoint allWhiteSpace (s : string) : bool :=
  match s with
  | EmptyString => true
  | String c rest => JsString.isWhiteSpace c && allWhiteSpace rest
  end.

(** The results [syncToR2] returns once the storage is mounted. *)
Definition lateResult (r : SyncResult) : Prop :=
  r = noConfigFile
  \/ (exists err, r = verifyFailed err)
  \/ (exists err, r = launchFailed err)
  \/ r = timedOut
  \/ (exists out, r = synced (JsString.trim out)
                  /\ validTimestamp (JsString.trim out) = true).

(** The two layouts the discovery can resolve. *)
Definition knownLayout {A : Type} (r : A + string) : Prop :=
  match r with
  | inl _ => True
  | inr configDir => configDir = "/root/.openclaw" \/ configDir = "/root/.clawdbot"
  end.

Definition knownCronLayout (r : option string) : Prop :=
  match r with
  | None => True
  | Some configDir => configDir = "/root/.openclaw" \/ configDir = "/root/.clawdbot"
  end.

(** The calls of a run of [m] from [st] hold at most [n] calls of a kind. *)
Definition atMost {W A : Type} (kind : Event -> bool) (n : nat) (m : Async W A) : Prop :=
  emits (fun evs => (count kind evs <= n)%nat) m.

(** ** Test doubles, after the mocks of the test suite

    The world of the mock sandbox is the number of processes started so
    far; the [n]-th [startProcess] answers with the [n]-th entry of a
    script, and with a default once the script is exhausted. *)

Definition createMockProcess (out : string) : Process nat :=
  {| status := "completed";
     getLogs := fun w => (Returns {| stdout := Some out; stderr := Some "" |}, w);
     getStatus := Some (fun w => (Returns "completed", w)) |}.

Definition mockStart (script : list (Outcome string)) (default : Outcome string)
    (cmd : string) (n : nat) : Outcome (Process nat) * nat :=
  match nth n script default with
  | Returns out => (Returns (createMockProcess out), S n)
  | Throws e => (Throws e, S n)
  end.

Definition createMockSandbox (script : list (Outcome string)) (default : Outcome string)
    (mount : Outcome unit) : Sandbox nat :=
  {| startProcess := mockStart script default;
     mountBucket := fun _ _ _ n => (mount, n) |}.

Definition mockImports : Imports nat :=
  {| waitForProcess := fun _ _ n => (Returns tt, n);
     getR2BucketName := fun _ => "moltbot-data";
     elapse := fun _ n => n |}.

Definition createMockEnv : MoltbotEnv :=
  {| R2_ACCESS_KEY_ID := None; R2_SECRET_ACCESS_KEY := None; CF_ACCOUNT_ID := None |}.

Definition createMockEnvWithR2 : MoltbotEnv :=
  {| R2_ACCESS_KEY_ID := Some "test-key-id";
     R2_SECRET_ACCESS_KEY := Some "test-secret-key";
     CF_ACCOUNT_ID := Some "test-account-id" |}.

Definition lf : string := String "010"%char EmptyString.

(** The runs of the test suite, and some more. *)
Definition timestamp : string := "2026-01-27T12:00:00+00:00".

Definition syncedSandbox : Sandbox nat :=
  createMockSandbox
    [Returns ("mounted" ++ lf); Returns "exists"; Returns ""; Returns timestamp]
    (Returns "") (Returns tt).

Definition slowSandbox : Sandbox nat :=
  createMockSandbox
    [Returns ("mounted" ++ lf); Returns "exists"; Returns ""; Returns "";
     Throws (ErrorObject "cat failed"); Returns (timestamp ++ lf)]
    (Returns "") (Returns tt).

Definition noConfigSandbox : Sandbox nat :=
  createMockSandbox [Returns ("mounted" ++ lf); Returns ""; Returns ""]
    (Returns "") (Returns tt).

Definition neverSyncedSandbox : Sandbox nat :=
  createMockSandbox [Returns ("mounted" ++ lf); Returns "exists"; Returns ""]
    (Returns "") (Returns tt).

Definition yearMonthSandbox : Sandbox nat :=
  createMockSandbox [Returns ("mounted" ++ lf); Returns "exists"; Returns ""]
    (Returns "2026-01") (Returns tt).

Definition brokenProbeSandbox : Sandbox nat :=
  createMockSandbox
    [Returns ("mounted" ++ lf); Throws (ErrorObject "sandbox unavailable");
     Returns "exists"; Returns ""; Returns timestamp]
    (Returns "") (Returns tt).

Definition mountedDespiteErrorSandbox : Sandbox nat :=
  createMockSandbox [Returns "not-mounted"; Returns "mounted"]
    (Returns "") (Throws (ErrorObject "already mounted")).

(** The state in which the polling loop starts on a mock sandbox, with the
    credentials of the test suite. *)
Definition startOfPolling (sandbox : Sandbox nat) : State nat :=
  match beforePolling mockImports sandbox createMockEnvWithR2 (fresh 0) with
  | Some st0 => st0
  | None => fresh 0
  end.

Definition legacySandbox : Sandbox nat :=
  createMockSandbox
    [Returns ("mounted" ++ lf); Returns ""; Returns "exists"; Returns ""; Returns timestamp]
    (Returns "") (Returns tt).

Definition mountFailsSandbox : Sandbox nat :=
  createMockSandbox [] (Returns "") (Throws (ErrorObject "Mount failed")).

(** More runs: the storage gets mounted by the primitive; the marker holds
    the line that [date] wrote; the copy command cannot be started. *)
Definition mountableSandbox : Sandbox nat :=
  createMockSandbox [] (Returns "") (Returns tt).

Definition newlineSandbox : Sandbox nat :=
  createMockSandbox
    [Returns ("mounted" ++ lf); Returns "exists"; Returns ""; Returns (timestamp ++ lf)]
    (Returns "") (Returns tt).

Definition launchFailsSandbox : Sandbox nat :=
  createMockSandbox
    [Returns ("mounted" ++ lf); Returns "exists"; Throws (OtherValue "ENOSPC")]
    (Returns "") (Returns tt).

Definition catFailsSandbox : Sandbox nat :=
  createMockSandbox
    [Returns ("mounted" ++ lf); Returns "exists"; Returns "";
     Throws (ErrorObject "cat failed"); Returns timestamp]
    (Returns "") (Returns tt).

(** * The test suite of [syncToR2], replayed on the model *)

Example returns_error_when_R2_is_not_configured :
  fst (syncToR2 mockImports mountFailsSandbox createMockEnv
         defaultPollIntervalMs defaultMaxPolls (fresh 0))
  = Returns (failure "R2 storage is not configured" None).
Proof. reflexivity. Qed.

Example returns_error_when_mount_fails :
  fst (syncToR2 mockImports mountFailsSandbox createMockEnvWithR2
         defaultPollIntervalMs defaultMaxPolls (fresh 0))
  = Returns (failure "Failed to mount R2 storage" None).
Proof. reflexivity. Qed.

Example returns_error_when_source_has_no_config_file :
  option_map error
    (match fst (syncToR2 mockImports noConfigSandbox createMockEnvWithR2
                  defaultPollIntervalMs defaultMaxPolls (fresh 0)) with
     | Returns r => Some r
     | Throws _ => None
     end)
  = Some (Some "Sync aborted: no config file found").
Proof. reflexivity. Qed.

Example returns_success_when_timestamp_file_is_written :
  fst (syncToR2 mockImports syncedSandbox createMockEnvWithR2
         defaultPollIntervalMs defaultMaxPolls (fresh 0))
  = Returns (synced "2026-01-27T12:00:00+00:00").
Proof. reflexivity. Qed.

Example falls_back_to_legacy_clawdbot_config_directory :
  let run := syncToR2 mockImports legacySandbox createMockEnvWithR2
               defaultPollIntervalMs defaultMaxPolls (fresh 0) in
  fst run = Returns (synced timestamp)
  /\ JsString.includes "/root/.clawdbot/" (nth 3 (startedCmds (calls (snd run))) "") = true.
Proof. split; reflexivity. Qed.

Example returns_error_when_no_timestamp_after_sync :
  option_map error
    (match fst (syncToR2 mockImports neverSyncedSandbox createMockEnvWithR2 10 3 (fresh 0)) with
     | Returns r => Some r
     | Throws _ => None
     end)
  = Some (Some "Sync timed out").
Proof. reflexivity. Qed.

Example verifies_rsync_command_excludes_git :
  let rsyncCall :=
    nth 2 (startedCmds
             (calls (snd (syncToR2 mockImports syncedSandbox createMockEnvWithR2
                            defaultPollIntervalMs defaultMaxPolls (fresh 0))))) "" in
  JsString.includes "--exclude='.git'" rsyncCall = true
  /\ JsString.includes "/root/.openclaw/" rsyncCall = true
  /\ JsString.includes "/data/moltbot/openclaw/" rsyncCall = true.
Proof. repeat split; reflexivity. Qed.

(** * Facts about the string primitives *)

Lemma append_assoc (a b c : string) : (a ++ b) ++ c = a ++ (b ++ c).
Proof. induction a as [|x a IH]; simpl; [reflexivity | now rewrite IH]. Qed.

Lemma isHyphen_eq (c : ascii) : JsString.isHyphen c = true -> c = "-"%char.
Proof.
  unfold JsString.isHyphen; intros H.
  apply Nat.eqb_eq in H.
  rewrite <- (ascii_nat_embedding c), H. reflexivity.
Qed.

Lemma matchesDatePrefix_begins (s : string) :
  JsString.matchesDatePrefix s = true -> JsString.beginsWithDate s.
Proof.
  unfold JsString.matchesDatePrefix, JsString.beginsWithDate.
  do 10 (destruct s as [|? s]; [discriminate|]).
  intros H.
  rewrite !andb_true_iff in H.
  repeat match goal with
         | E : _ /\ _ |- _ => destruct E
         end.
  repeat match goal with
         | E : JsString.isHyphen _ = true |- _ => apply isHyphen_eq in E; subst
         end.
  do 8 eexists. exists s. split; [reflexivity|].
  repeat constructor; assumption.
Qed.

Lemma trimStart_first (s : string) :
  JsString.notWhiteSpace (JsString.firstChar (JsString.trimStart s)).
Proof.
  induction s as [|c s IH]; simpl; [exact I|].
  destruct (JsString.isWhiteSpace c) eqn:E; [exact IH | exact E].
Qed.

Lemma trimEnd_first (s : string) :
  JsString.notWhiteSpace (JsString.firstChar s) ->
  JsString.firstChar (JsString.trimEnd s) = JsString.firstChar s.
Proof.
  destruct s as [|c s]; simpl; [reflexivity|]. intros E.
  destruct (JsString.trimEnd s); [rewrite E|]; reflexivity.
Qed.

Lemma trimEnd_last (s : string) :
  JsString.notWhiteSpace (JsString.lastChar (JsString.trimEnd s)).
Proof.
  induction s as [|c s IH]; simpl; [exact I|].
  destruct (JsString.trimEnd s) as [|k kept] eqn:E.
  - destruct (JsString.isWhiteSpace c) eqn:Ec; simpl; [exact I | exact Ec].
  - exact IH.
Qed.

Lemma trim_first (s : string) :
  JsString.notWhiteSpace (JsString.firstChar (JsString.trim s)).
Proof.
  unfold JsString.trim.
  rewrite trimEnd_first; apply trimStart_first.
Qed.

Lemma trim_last (s : string) :
  JsString.notWhiteSpace (JsString.lastChar (JsString.trim s)).
Proof. apply trimEnd_last. Qed.

Lemma nonEmpty_neq (s : string) : JsString.nonEmpty s = true -> s <> "".
Proof. destruct s; [discriminate | intros _ E; discriminate E]. Qed.

Lemma validTimestamp_shape (s : string) :
  validTimestamp s = true -> s <> "" /\ JsString.beginsWithDate s.
Proof.
  unfold validTimestamp. intros H. apply andb_prop in H. destruct H as [Hn Hm].
  split; [now apply nonEmpty_neq | now apply matchesDatePrefix_begins].
Qed.

(** * The compound copy command *)

Lemma render_syncScript (configDir : string) :
  Shell.render (Shell.syncScript configDir) = buildSyncCmd configDir.
Proof.
  unfold buildSyncCmd, configMirrorCmd. cbn.
  repeat rewrite append_assoc. cbn. reflexivity.
Qed.

Lemma step2_succeeds {S : Type} (run : string -> S -> Z * S) (m : Shell.Machine S) :
  fst (Shell.exec run Shell.step2 m) = 0%Z.
Proof.
  simpl.
  destruct (run Shell.workspaceTest (Shell.machine m)) as [z1 s1]; simpl.
  destruct (z1 =? 0)%Z eqn:E1; simpl.
  - destruct (run Shell.workspaceMirror s1) as [z2 s2]; simpl.
    destruct (z2 =? 0)%Z eqn:E2; simpl; [now apply Z.eqb_eq | reflexivity].
  - rewrite E1. reflexivity.
Qed.

Lemma step3_succeeds {S : Type} (run : string -> S -> Z * S) (m : Shell.Machine S) :
  fst (Shell.exec run Shell.step3 m) = 0%Z.
Proof.
  simpl.
  destruct (run Shell.skillsTest (Shell.machine m)) as [z1 s1]; simpl.
  destruct (z1 =? 0)%Z eqn:E1; simpl.
  - destruct (run Shell.skillsMirror s1) as [z2 s2]; simpl.
    destruct (z2 =? 0)%Z eqn:E2; simpl; [now apply Z.eqb_eq | reflexivity].
  - rewrite E1. reflexivity.
Qed.

Lemma configMirror_not_marker (configDir : string) :
  configMirrorCmd configDir <> markerWriteCmd.
Proof. unfold configMirrorCmd, markerWriteCmd. cbn. discriminate. Qed.

Lemma step4_runs_marker {S : Type} (run : string -> S -> Z * S) (m : Shell.Machine S) :
  Shell.ran markerWriteCmd (snd (Shell.exec run Shell.step4 m)).
Proof.
  unfold Shell.ran. simpl.
  destruct (run markerWriteCmd (Shell.machine m)) as [z s]; simpl.
  rewrite map_app, in_app_iff. right. left. reflexivity.
Qed.

(** C1, as the code has it: the command of [buildSyncCmd] is the four
    steps joined by [&&]; the marker write of step 4 is executed exactly
    when the config mirror of step 1 exits with status 0, because steps 2
    and 3, each a subshell ending in [|| true], exit with status 0 whatever
    their directory test and their rsync do. *)
Theorem buildSyncCmd_marker_iff_config_mirror :
  forall (S : Type) (run : string -> S -> Z * S) (configDir : string) (s : S),
    Shell.render (Shell.syncScript configDir) = buildSyncCmd configDir
    /\ (Shell.ran markerWriteCmd
          (snd (Shell.exec run (Shell.syncScript configDir) (Shell.boot s)))
        <-> fst (run (configMirrorCmd configDir) s) = 0%Z)
    /\ (forall m, fst (Shell.exec run Shell.step2 m) = 0%Z)
    /\ (forall m, fst (Shell.exec run Shell.step3 m) = 0%Z).
Proof.
  intros S run configDir s.
  split; [apply render_syncScript|].
  split; [|split; intros m; [apply step2_succeeds | apply step3_succeeds]].
  unfold Shell.syncScript.
  cbn [Shell.exec].
  change (Shell.exec run (Shell.step1 configDir) (Shell.boot s))
    with (let (status, s') := run (configMirrorCmd configDir) s in
          (status, {| Shell.machine := s';
                      Shell.executed := ([] ++ [(configMirrorCmd configDir, status)])%list |})).
  destruct (run (configMirrorCmd configDir) s) as [z1 s1]. cbv beta iota. cbn [fst].
  destruct (z1 =? 0)%Z eqn:E1.
  - apply Z.eqb_eq in E1. split; [intros _; exact E1 | intros _].
    set (m1 := {| Shell.machine := s1; Shell.executed := _ |}).
    pose proof (step2_succeeds run m1) as H2.
    destruct (Shell.exec run Shell.step2 m1) as [z2 m2]. cbn [fst] in H2. subst z2.
    cbn [Z.eqb].
    pose proof (step3_succeeds run m2) as H3.
    destruct (Shell.exec run Shell.step3 m2) as [z3 m3]. cbn [fst] in H3. subst z3.
    cbn [Z.eqb].
    apply step4_runs_marker.
  - split.
    + unfold Shell.ran. repeat (cbv beta iota; rewrite E1). cbn. intros [H|[]].
      now apply configMirror_not_marker in H.
    + intros H. subst z1. discriminate E1.
Qed.

(** C1, as stated, fails: on a machine where the workspace mirror of step 2
    is executed and exits with status 23, the marker write of step 4 is
    executed all the same. *)
Lemma buildSyncCmd_marker_despite_failed_mirror :
  let script := Shell.syncScript "/root/.openclaw" in
  let final := snd (Shell.exec Shell.workspaceMirrorFails script (Shell.boot tt)) in
  Shell.render script = buildSyncCmd "/root/.openclaw"
  /\ In (Shell.workspaceMirror, 23%Z) (Shell.executed final)
  /\ In (markerWriteCmd, 0%Z) (Shell.executed final).
Proof.
  cbv zeta. split; [reflexivity|].
  vm_compute. split; [right; right; left; reflexivity|].
  do 5 right. left. reflexivity.
Qed.

(** * Reasoning rules for asynchronous computations *)

Section Rules.
Context {W : Type}.

Lemma bind_returns {A B : Type} (m : Async W A) (k : A -> Async W B) st a st' :
  m st = (Returns a, st') -> bind m k st = k a st'.
Proof. unfold bind. intros ->. reflexivity. Qed.

Lemma bind_throws {A B : Type} (m : Async W A) (k : A -> Async W B) st e st' :
  m st = (Throws e, st') -> bind m k st = (Throws e, st').
Proof. unfold bind. intros ->. reflexivity. Qed.

Lemma tryCatch_returns {A : Type} (body : Async W A) handler st a st' :
  body st = (Returns a, st') -> tryCatch body handler st = (Returns a, st').
Proof. unfold tryCatch. intros ->. reflexivity. Qed.

Lemma tryCatch_throws {A : Type} (body : Async W A) handler st e st' :
  body st = (Throws e, st') -> tryCatch body handler st = handler e st'.
Proof. unfold tryCatch. intros ->. reflexivity. Qed.

Lemma settles_ret {A : Type} (P : A -> Prop) (a : A) :
  P a -> settles (W := W) P (ret a).
Proof. intros H st. exact H. Qed.

Lemma settles_bind {A B : Type} (Q : A -> Prop) (P : B -> Prop)
    (m : Async W A) (k : A -> Async W B) :
  settles Q m -> (forall a, Q a -> settles P (k a)) -> settles P (bind m k).
Proof.
  intros Hm Hk st. specialize (Hm st). unfold bind.
  destruct (m st) as [[a|e] st']; cbn in *; [|contradiction].
  apply Hk, Hm.
Qed.

Lemma ensures_ret {A : Type} (P : A -> Prop) (a : A) :
  P a -> ensures (W := W) P (ret a).
Proof. intros H st. exact H. Qed.

Lemma ensures_bind {A B : Type} (Q : A -> Prop) (P : B -> Prop)
    (m : Async W A) (k : A -> Async W B) :
  ensures Q m -> (forall a, Q a -> ensures P (k a)) -> ensures P (bind m k).
Proof.
  intros Hm Hk st. specialize (Hm st). unfold bind.
  destruct (m st) as [[a|e] st']; cbn in *; [|exact I].
  apply Hk, Hm.
Qed.

Lemma ensures_any {A : Type} (m : Async W A) : ensures (fun _ => True) m.
Proof. intros st. destruct (fst (m st)); exact I. Qed.

Lemma settles_tryCatch {A : Type} (P : A -> Prop) (body : Async W A) handler :
  ensures P body -> (forall e, settles P (handler e)) -> settles P (tryCatch body handler).
Proof.
  intros Hb Hh st. specialize (Hb st). unfold tryCatch.
  destruct (body st) as [[a|e] st']; cbn in *; [exact Hb | apply Hh].
Qed.

Lemma settles_log (line : list string) : settles (W := W) (fun _ => True) (log line).
Proof. intros st. exact I. Qed.

Lemma settles_sleep (imports : Imports W) (ms : Z) :
  settles (fun _ => True) (sleep imports ms).
Proof. intros st. exact I. Qed.

Lemma settles_returns {A : Type} (P : A -> Prop) (m : Async W A) (st : State W) :
  settles P m -> exists a st', m st = (Returns a, st') /\ P a.
Proof.
  intros Hm. specialize (Hm st).
  destruct (m st) as [[a|e] st']; cbn in Hm; [|contradiction].
  exists a, st'. split; [reflexivity | exact Hm].
Qed.

End Rules.

(** * Results of [syncToR2] *)

Lemma wellFormed_failure (message : string) (more : option string) :
  wellFormed (failure message more).
Proof. split; [exists message|]; reflexivity. Qed.

Lemma wellFormed_synced (out : string) :
  validTimestamp (JsString.trim out) = true -> wellFormed (synced (JsString.trim out)).
Proof.
  intros H. apply validTimestamp_shape in H. destruct H as [Hne Hdate].
  split; [|reflexivity].
  exists (JsString.trim out).
  repeat split; auto using trim_first, trim_last.
Qed.

Section Settling.
Context {W : Type} (imports : Imports W) (sandbox : Sandbox W).

Lemma isR2Mounted_settles : settles (fun _ => True) (isR2Mounted imports sandbox).
Proof.
  apply settles_tryCatch; [apply ensures_any|].
  intros e. eapply settles_bind; [apply settles_log|].
  intros _ _. now apply settles_ret.
Qed.

Lemma mountR2Storage_settles (env : MoltbotEnv) :
  settles (fun _ => True) (mountR2Storage imports sandbox env).
Proof.
  unfold mountR2Storage.
  destruct (credentialsMissing env).
  - eapply settles_bind; [apply settles_log|]. intros _ _. now apply settles_ret.
  - eapply settles_bind; [apply isR2Mounted_settles|].
    intros [|] _.
    + eapply settles_bind; [apply settles_log|]. intros _ _. now apply settles_ret.
    + apply settles_tryCatch; [apply ensures_any|].
      intros e. eapply settles_bind; [apply settles_log|]. intros _ _.
      eapply settles_bind; [apply isR2Mounted_settles|].
      intros [|] _;
        (eapply settles_bind; [apply settles_log|]; intros _ _; now apply settles_ret).
Qed.

Lemma detectConfigDir_settles : settles earlyOrValue (detectConfigDir imports sandbox).
Proof.
  apply settles_tryCatch.
  - eapply ensures_bind; [apply ensures_any|]. intros checkNew _.
    destruct (JsString.includes "exists" (cmd_stdout checkNew)).
    + now apply ensures_ret.
    + eapply ensures_bind; [apply ensures_any|]. intros checkLegacy _.
      destruct (JsString.includes "exists" (cmd_stdout checkLegacy)).
      * now apply ensures_ret.
      * apply ensures_ret. apply wellFormed_failure.
  - intros e. apply settles_ret. apply wellFormed_failure.
Qed.

Lemma launchSync_settles (syncCmd : string) :
  settles wellFormedIfAny (launchSync sandbox syncCmd).
Proof.
  apply settles_tryCatch.
  - eapply ensures_bind; [apply ensures_any|]. intros _ _. now apply ensures_ret.
  - intros e. apply settles_ret. apply wellFormed_failure.
Qed.

Lemma pollOnce_settles (pollIntervalMs : Z) :
  settles wellFormedIfAny (pollOnce imports sandbox pollIntervalMs).
Proof.
  eapply settles_bind; [apply settles_sleep|]. intros _ _.
  apply settles_tryCatch.
  - eapply ensures_bind; [apply ensures_any|]. intros ts _. cbv zeta.
    destruct (validTimestamp (JsString.trim (cmd_stdout ts))) eqn:E.
    + apply ensures_ret. now apply wellFormed_synced.
    + now apply ensures_ret.
  - intros e. now apply settles_ret.
Qed.

Lemma pollLoop_settles (pollIntervalMs : Z) (remaining : nat) :
  settles wellFormed (pollLoop imports sandbox pollIntervalMs remaining).
Proof.
  induction remaining as [|n IH]; simpl.
  - apply settles_ret. apply wellFormed_failure.
  - eapply settles_bind; [apply pollOnce_settles|].
    intros [result|] H; [now apply settles_ret | exact IH].
Qed.

Lemma syncToR2_settles (env : MoltbotEnv) (pollIntervalMs maxPolls : Z) :
  settles wellFormed (syncToR2 imports sandbox env pollIntervalMs maxPolls).
Proof.
  unfold syncToR2.
  destruct (credentialsMissing env).
  - apply settles_ret. apply wellFormed_failure.
  - eapply settles_bind; [apply mountR2Storage_settles|].
    intros [|] _; cbn [negb].
    + eapply settles_bind; [apply detectConfigDir_settles|].
      intros [aborted|configDir] H; [now apply settles_ret|].
      eapply settles_bind; [apply launchSync_settles|].
      intros [failed|] H'; [now apply settles_ret | apply pollLoop_settles].
    + apply settles_ret. apply wellFormed_failure.
Qed.

End Settling.

(** C9: whatever the sandbox does (each of its calls returning or
    throwing), [syncToR2] ends by returning a [SyncResult]; it never
    throws. *)
Theorem syncToR2_never_throws :
  forall (W : Type) (imports : Imports W) (sandbox : Sandbox W) (env : MoltbotEnv)
         (pollIntervalMs maxPolls : Z) (st : State W),
  exists (result : SyncResult) (st' : State W),
    syncToR2 imports sandbox env pollIntervalMs maxPolls st = (Returns result, st').
Proof.
  intros.
  destruct (settles_returns wellFormed _ st
              (syncToR2_settles imports sandbox env pollIntervalMs maxPolls))
    as (r & st' & E & _).
  now exists r, st'.
Qed.

(** C10: every result that [syncToR2] returns is well formed: on success
    [lastSync] is present, not empty, without white space at either end,
    begins with a date (four digits, hyphen, two digits, hyphen, two
    digits) and [error] is absent; on failure [error] is present and
    [lastSync] is absent. *)
Theorem syncToR2_result_wellFormed :
  forall (W : Type) (imports : Imports W) (sandbox : Sandbox W) (env : MoltbotEnv)
         (pollIntervalMs maxPolls : Z) (st : State W) (result : SyncResult),
    fst (syncToR2 imports sandbox env pollIntervalMs maxPolls st) = Returns result ->
    wellFormed result.
Proof.
  intros W imports sandbox env pollIntervalMs maxPolls st result E.
  pose proof (syncToR2_settles imports sandbox env pollIntervalMs maxPolls st) as H.
  rewrite E in H. exact H.
Qed.

(** * The mount coordinator *)

(** C7: when the access key, the secret key or the account identifier is
    missing (undefined or empty), [mountR2Storage] returns [false] at once:
    the world is untouched and no call is made on the sandbox, so the mount
    primitive is not invoked; the only trace is one line on the console. *)
Theorem mountR2Storage_missing_credentials :
  forall (W : Type) (imports : Imports W) (sandbox : Sandbox W) (env : MoltbotEnv)
         (st : State W),
    JsString.truthy (R2_ACCESS_KEY_ID env) = false
    \/ JsString.truthy (R2_SECRET_ACCESS_KEY env) = false
    \/ JsString.truthy (CF_ACCOUNT_ID env) = false ->
    exists st',
      mountR2Storage imports sandbox env st = (Returns false, st')
      /\ world st' = world st
      /\ calls st' = calls st
      /\ filter isMountBucket (calls st') = filter isMountBucket (calls st)
      /\ console st' = (console st ++ [notConfiguredLine])%list.
Proof.
  intros W imports sandbox env st H.
  assert (E : credentialsMissing env = true).
  { unfold credentialsMissing.
    destruct H as [H|[H|H]]; rewrite H;
      repeat match goal with
             | |- context [JsString.truthy ?o] => destruct (JsString.truthy o)
             end; reflexivity. }
  unfold mountR2Storage. rewrite E.
  eexists. split; [reflexivity|]. cbn. auto.
Qed.

Lemma mountR2Storage_missing_credentials_witness :
  exists st',
    mountR2Storage mockImports mountFailsSandbox createMockEnv (fresh 0)
    = (Returns false, st')
    /\ world st' = 0
    /\ calls st' = []
    /\ filter isMountBucket (calls st') = []
    /\ console st' = [notConfiguredLine].
Proof.
  apply (mountR2Storage_missing_credentials nat mockImports mountFailsSandbox
           createMockEnv (fresh 0)).
  left. reflexivity.
Defined.

(** C8: when the mount primitive throws, [mountR2Storage] rechecks the
    mount table once and returns what the recheck reports: [true] when it
    reports the path mounted, [false] when it does not.  The error is not
    thrown to the caller, and no call follows the recheck. *)
Theorem mountR2Storage_recheck_after_throw :
  forall (W : Type) (imports : Imports W) (sandbox : Sandbox W) (env : MoltbotEnv)
         (st st1 : State W) (err : Thrown) (w2 : W) (recheck : bool) (st3 : State W),
    credentialsMissing env = false ->
    isR2Mounted imports sandbox st = (Returns false, st1) ->
    mountBucket sandbox (getR2BucketName imports env) R2_MOUNT_PATH (mountOptions env)
      (world st1) = (Throws err, w2) ->
    isR2Mounted imports sandbox (afterMountError imports env err st1 w2)
    = (Returns recheck, st3) ->
    fst (mountR2Storage imports sandbox env st) = Returns recheck
    /\ world (snd (mountR2Storage imports sandbox env st)) = world st3
    /\ calls (snd (mountR2Storage imports sandbox env st)) = calls st3.
Proof.
  intros W imports sandbox env st st1 err w2 recheck st3 Hcred Hfirst Hmount Hrecheck.
  assert (E : mountR2Storage imports sandbox env st
              = (Returns recheck,
                 {| world := world st3;
                    calls := calls st3;
                    console :=
                      (console st3
                       ++ [if recheck then ["R2 bucket is mounted despite error"]
                           else ["Failed to mount R2 bucket:"; showThrown err]])%list |})).
  { unfold mountR2Storage. rewrite Hcred.
    rewrite (bind_returns _ _ _ _ _ Hfirst).
    unfold tryCatch.
    unfold bind at 1. unfold log at 1. cbv beta iota.
    unfold bind at 1. unfold await at 1. cbn [world calls console].
    rewrite Hmount. cbv beta iota zeta.
    unfold bind at 1. unfold log at 1. cbn [world calls console].
    fold (afterMountError imports env err st1 w2).
    rewrite (bind_returns _ _ _ _ _ Hrecheck).
    destruct recheck; reflexivity. }
  rewrite E. cbn. auto.
Qed.

Lemma mountR2Storage_recheck_after_throw_witness :
  fst (mountR2Storage mockImports mountedDespiteErrorSandbox createMockEnvWithR2 (fresh 0))
  = Returns true.
Proof.
  pose (st1 := snd (isR2Mounted mockImports mountedDespiteErrorSandbox (fresh 0))).
  pose (err := ErrorObject "already mounted").
  pose (st3 := snd (isR2Mounted mockImports mountedDespiteErrorSandbox
                      (afterMountError mockImports createMockEnvWithR2 err st1 1%nat))).
  refine (proj1 (mountR2Storage_recheck_after_throw nat mockImports
                   mountedDespiteErrorSandbox createMockEnvWithR2 (fresh 0) st1 err 1%nat
                   true st3 _ _ _ _));
    vm_compute; reflexivity.
Defined.

(** * The calls of a run *)

Section Calls.
Context {W : Type}.

Lemma callsSince_refl (st : State W) : callsSince st st [].
Proof. unfold callsSince. now rewrite app_nil_r. Qed.

Lemma callsSince_trans (st1 st2 st3 : State W) (evs1 evs2 : list Event) :
  callsSince st1 st2 evs1 -> callsSince st2 st3 evs2 ->
  callsSince st1 st3 (evs1 ++ evs2)%list.
Proof. unfold callsSince. intros E1 E2. now rewrite E2, E1, app_assoc. Qed.

Lemma emits_ret {A : Type} (P : Event -> Prop) (a : A) :
  emits (W := W) (Forall P) (ret a).
Proof. intros st. exists []. split; [apply callsSince_refl | constructor]. Qed.

Lemma emits_log (P : Event -> Prop) (line : list string) :
  emits (W := W) (Forall P) (log line).
Proof.
  intros st. exists []. split; [|constructor].
  unfold callsSince. cbn. now rewrite app_nil_r.
Qed.

Lemma emits_await {A : Type} (P : Event -> Prop) (ev : Event)
    (call : W -> Outcome A * W) :
  P ev -> emits (Forall P) (await ev call).
Proof.
  intros H st. exists [ev]. unfold await.
  destruct (call (world st)) as [r w']. split; [reflexivity | now repeat constructor].
Qed.

Lemma emits_bind {A B : Type} (P : Event -> Prop) (m : Async W A) (k : A -> Async W B) :
  emits (Forall P) m -> (forall a, emits (Forall P) (k a)) -> emits (Forall P) (bind m k).
Proof.
  intros Hm Hk st. destruct (Hm st) as (evs1 & E1 & F1). unfold bind.
  destruct (m st) as [[a|e] st1]; cbn in E1.
  - destruct (Hk a st1) as (evs2 & E2 & F2).
    exists (evs1 ++ evs2)%list. split; [now apply callsSince_trans with st1|].
    apply Forall_app. now split.
  - now exists evs1.
Qed.

Lemma emits_tryCatch {A : Type} (P : Event -> Prop) (body : Async W A) handler :
  emits (Forall P) body -> (forall e, emits (Forall P) (handler e)) ->
  emits (Forall P) (tryCatch body handler).
Proof.
  intros Hb Hh st. destruct (Hb st) as (evs1 & E1 & F1). unfold tryCatch.
  destruct (body st) as [[a|e] st1]; cbn in E1.
  - now exists evs1.
  - destruct (Hh e st1) as (evs2 & E2 & F2).
    exists (evs1 ++ evs2)%list. split; [now apply callsSince_trans with st1|].
    apply Forall_app. now split.
Qed.

Lemma startedCmds_app (evs1 evs2 : list Event) :
  startedCmds (evs1 ++ evs2) = (startedCmds evs1 ++ startedCmds evs2)%list.
Proof. apply flat_map_app. Qed.

Lemma onHandle_startedCmds (evs : list Event) :
  Forall onHandle evs -> startedCmds evs = [].
Proof.
  induction 1 as [|ev evs H _ IH]; [reflexivity|].
  destruct ev; cbn in *; try contradiction; exact IH.
Qed.

Lemma onHandle_no_sleep (evs : list Event) :
  Forall onHandle evs -> filter isSleep evs = [].
Proof.
  induction 1 as [|ev evs H _ IH]; [reflexivity|].
  destruct ev; cbn in *; try contradiction; exact IH.
Qed.

Lemma onHandle_notCopyLaunch (ev : Event) : onHandle ev -> notCopyLaunch ev.
Proof. destruct ev; cbn; try contradiction; intros _ d; discriminate. Qed.

Lemma notCopyLaunch_started (evs : list Event) :
  Forall notCopyLaunch evs ->
  forall configDir, ~ In (buildSyncCmd configDir) (startedCmds evs).
Proof.
  induction 1 as [|ev evs H _ IH]; intros d; [intros []|].
  destruct ev; cbn; try apply IH.
  intros [E|HIn]; [|now apply (IH d)].
  apply (H d). now rewrite E.
Qed.

Lemma mountProbe_notCopyLaunch : notCopyLaunch (StartProcess mountProbeCmd).
Proof. intros d. unfold buildSyncCmd, configMirrorCmd. cbn. discriminate. Qed.

Lemma primaryProbe_notCopyLaunch : notCopyLaunch (StartProcess primaryProbeCmd).
Proof. intros d. unfold buildSyncCmd, configMirrorCmd. cbn. discriminate. Qed.

Lemma legacyProbe_notCopyLaunch : notCopyLaunch (StartProcess legacyProbeCmd).
Proof. intros d. unfold buildSyncCmd, configMirrorCmd. cbn. discriminate. Qed.

Context (imports : Imports W) (sandbox : Sandbox W).

(** [runCommand] starts [cmd] and then only calls the process handle. *)
Lemma runCommand_calls (cmd : string) (timeoutMs : Z) :
  emits (fun evs => exists rest, evs = StartProcess cmd :: rest /\ Forall onHandle rest)
    (runCommand imports sandbox cmd timeoutMs).
Proof.
  intros st. unfold runCommand, callsSince, bind, await, ret.
  destruct (startProcess sandbox cmd (world st)) as [[proc|e] w1]; cbn.
  2: { eexists. split; [reflexivity|]. eexists. split; [reflexivity | constructor]. }
  destruct (waitForProcess imports proc timeoutMs w1) as [[[]|e] w2]; cbn.
  2: { rewrite <- app_assoc. eexists. split; [reflexivity|].
       eexists. split; [reflexivity | now repeat constructor]. }
  destruct (getLogs proc w2) as [[logs|e] w3]; cbn.
  2: { rewrite <- !app_assoc. eexists. split; [reflexivity|].
       eexists. split; [reflexivity | now repeat constructor]. }
  destruct (getStatus proc) as [current|]; cbn.
  - destruct (current w3) as [[s|e] w4]; cbn;
      rewrite <- !app_assoc; (eexists; split; [reflexivity|]);
      (eexists; split; [reflexivity | now repeat constructor]).
  - rewrite <- !app_assoc. eexists. split; [reflexivity|].
    eexists. split; [reflexivity | now repeat constructor].
Qed.

Lemma runCommand_emits (P : Event -> Prop) (cmd : string) (timeoutMs : Z) :
  P (StartProcess cmd) -> (forall ev, onHandle ev -> P ev) ->
  emits (Forall P) (runCommand imports sandbox cmd timeoutMs).
Proof.
  intros Hstart Hhandle st.
  destruct (runCommand_calls cmd timeoutMs st) as (evs & E & rest & -> & F).
  exists (StartProcess cmd :: rest). split; [exact E|].
  constructor; [exact Hstart|]. eapply Forall_impl; [exact Hhandle | exact F].
Qed.

Lemma isR2Mounted_emits (P : Event -> Prop) :
  P (StartProcess mountProbeCmd) -> (forall ev, onHandle ev -> P ev) ->
  emits (Forall P) (isR2Mounted imports sandbox).
Proof.
  intros Hstart Hhandle. unfold isR2Mounted.
  apply emits_tryCatch.
  - apply emits_bind; [now apply emits_await|]. intros proc.
    apply emits_bind; [apply emits_await; now apply Hhandle|]. intros _.
    apply emits_bind; [apply emits_await; now apply Hhandle|]. intros logs.
    cbv zeta. apply emits_bind; [apply emits_log|]. intros _. apply emits_ret.
  - intros e. apply emits_bind; [apply emits_log|]. intros _. apply emits_ret.
Qed.

Lemma mountR2Storage_emits (P : Event -> Prop) (env : MoltbotEnv) :
  P (StartProcess mountProbeCmd) -> (forall ev, onHandle ev -> P ev) ->
  (forall bucket path options, P (MountBucket bucket path options)) ->
  emits (Forall P) (mountR2Storage imports sandbox env).
Proof.
  intros Hstart Hhandle Hmount. unfold mountR2Storage.
  destruct (credentialsMissing env).
  - apply emits_bind; [apply emits_log|]. intros _. apply emits_ret.
  - apply emits_bind; [now apply isR2Mounted_emits|]. intros [|].
    + apply emits_bind; [apply emits_log|]. intros _. apply emits_ret.
    + apply emits_tryCatch.
      * apply emits_bind; [apply emits_log|]. intros _.
        apply emits_bind; [apply emits_await, Hmount|]. intros _.
        apply emits_bind; [apply emits_log|]. intros _. apply emits_ret.
      * intros e. cbv zeta. apply emits_bind; [apply emits_log|]. intros _.
        apply emits_bind; [now apply isR2Mounted_emits|].
        intros [|]; (apply emits_bind; [apply emits_log|]); intros _; apply emits_ret.
Qed.

Lemma mountR2Storage_no_copy (env : MoltbotEnv) :
  emits (Forall notCopyLaunch) (mountR2Storage imports sandbox env).
Proof.
  apply mountR2Storage_emits.
  - apply mountProbe_notCopyLaunch.
  - apply onHandle_notCopyLaunch.
  - intros bucket path options d. discriminate.
Qed.

End Calls.

(** * Layout discovery *)

Section Discovery.
Context {W : Type} (imports : Imports W) (sandbox : Sandbox W).

Lemma detectConfigDir_absent (st1 st2 st3 : State W) (checkNew checkLegacy : CommandResult) :
  runCommand imports sandbox primaryProbeCmd 5000%Z st1 = (Returns checkNew, st2) ->
  JsString.includes "exists" (cmd_stdout checkNew) = false ->
  runCommand imports sandbox legacyProbeCmd 5000%Z st2 = (Returns checkLegacy, st3) ->
  JsString.includes "exists" (cmd_stdout checkLegacy) = false ->
  detectConfigDir imports sandbox st1 = (Returns (inl noConfigFile), st3).
Proof.
  intros H1 A1 H2 A2. unfold detectConfigDir.
  apply tryCatch_returns.
  rewrite (bind_returns _ _ _ _ _ H1), A1.
  rewrite (bind_returns _ _ _ _ _ H2), A2.
  reflexivity.
Qed.

Lemma detectConfigDir_primary_throws (st1 st2 : State W) (err : Thrown) :
  runCommand imports sandbox primaryProbeCmd 5000%Z st1 = (Throws err, st2) ->
  detectConfigDir imports sandbox st1 = (Returns (inl (verifyFailed err)), st2).
Proof.
  intros H1. unfold detectConfigDir.
  erewrite tryCatch_throws; [reflexivity|].
  now rewrite (bind_throws _ _ _ _ _ H1).
Qed.

Lemma detectConfigDir_legacy_throws (st1 st2 st3 : State W) (checkNew : CommandResult)
    (err : Thrown) :
  runCommand imports sandbox primaryProbeCmd 5000%Z st1 = (Returns checkNew, st2) ->
  JsString.includes "exists" (cmd_stdout checkNew) = false ->
  runCommand imports sandbox legacyProbeCmd 5000%Z st2 = (Throws err, st3) ->
  detectConfigDir imports sandbox st1 = (Returns (inl (verifyFailed err)), st3).
Proof.
  intros H1 A1 H2. unfold detectConfigDir.
  erewrite tryCatch_throws; [reflexivity|].
  rewrite (bind_returns _ _ _ _ _ H1), A1.
  now rewrite (bind_throws _ _ _ _ _ H2).
Qed.

Lemma syncToR2_early_return (env : MoltbotEnv) (pollIntervalMs maxPolls : Z)
    (st st1 st2 : State W) (aborted : SyncResult) :
  credentialsMissing env = false ->
  mountR2Storage imports sandbox env st = (Returns true, st1) ->
  detectConfigDir imports sandbox st1 = (Returns (inl aborted), st2) ->
  syncToR2 imports sandbox env pollIntervalMs maxPolls st = (Returns aborted, st2).
Proof.
  intros Hcred Hmount Hdetect. unfold syncToR2. rewrite Hcred.
  rewrite (bind_returns _ _ _ _ _ Hmount). cbn [negb].
  now rewrite (bind_returns _ _ _ _ _ Hdetect).
Qed.

End Discovery.

(** C6: the primary path is probed before the legacy path; when both probes
    answer without the sentinel, [syncToR2] returns the "no config file
    found" failure, right after the legacy probe, and no call of the run
    starts a copy command. *)
Theorem syncToR2_no_config_file :
  forall (W : Type) (imports : Imports W) (sandbox : Sandbox W) (env : MoltbotEnv)
         (pollIntervalMs maxPolls : Z) (st st1 st2 st3 : State W)
         (checkNew checkLegacy : CommandResult),
    credentialsMissing env = false ->
    mountR2Storage imports sandbox env st = (Returns true, st1) ->
    runCommand imports sandbox primaryProbeCmd 5000%Z st1 = (Returns checkNew, st2) ->
    JsString.includes "exists" (cmd_stdout checkNew) = false ->
    runCommand imports sandbox legacyProbeCmd 5000%Z st2 = (Returns checkLegacy, st3) ->
    JsString.includes "exists" (cmd_stdout checkLegacy) = false ->
    syncToR2 imports sandbox env pollIntervalMs maxPolls st = (Returns noConfigFile, st3)
    /\ error noConfigFile = Some "Sync aborted: no config file found"
    /\ exists mounting probing,
         callsSince st st3 (mounting ++ probing)
         /\ startedCmds probing = [primaryProbeCmd; legacyProbeCmd]
         /\ forall configDir,
              ~ In (buildSyncCmd configDir) (startedCmds (mounting ++ probing)).
Proof.
  intros W imports sandbox env pollIntervalMs maxPolls st st1 st2 st3 checkNew checkLegacy
         Hcred Hmount H1 A1 H2 A2.
  split; [|split; [reflexivity|]].
  - eapply syncToR2_early_return; eauto using detectConfigDir_absent.
  - destruct (mountR2Storage_no_copy imports sandbox env st) as (mounting & Em & Fm).
    rewrite Hmount in Em. cbn [snd] in Em.
    destruct (runCommand_calls imports sandbox primaryProbeCmd 5000%Z st1)
      as (evs1 & E1 & rest1 & -> & F1).
    rewrite H1 in E1. cbn [snd] in E1.
    destruct (runCommand_calls imports sandbox legacyProbeCmd 5000%Z st2)
      as (evs2 & E2 & rest2 & -> & F2).
    rewrite H2 in E2. cbn [snd] in E2.
    exists mounting,
      ((StartProcess primaryProbeCmd :: rest1) ++ (StartProcess legacyProbeCmd :: rest2))%list.
    split; [|split].
    + eapply callsSince_trans; [exact Em|].
      eapply callsSince_trans; [exact E1 | exact E2].
    + rewrite startedCmds_app. cbn [startedCmds flat_map startedCmd].
      fold (startedCmds rest1). fold (startedCmds rest2).
      rewrite (onHandle_startedCmds rest1 F1), (onHandle_startedCmds rest2 F2).
      reflexivity.
    + apply notCopyLaunch_started.
      apply Forall_app. split; [exact Fm|].
      apply Forall_app. split; constructor;
        try apply primaryProbe_notCopyLaunch; try apply legacyProbe_notCopyLaunch;
        (eapply Forall_impl; [apply onHandle_notCopyLaunch | eassumption]).
Qed.

Lemma syncToR2_no_config_file_witness :
  exists st3,
    syncToR2 mockImports noConfigSandbox createMockEnvWithR2 2000 90 (fresh 0)
    = (Returns noConfigFile, st3).
Proof.
  pose (st1 := snd (mountR2Storage mockImports noConfigSandbox createMockEnvWithR2 (fresh 0))).
  pose (st2 := snd (runCommand mockImports noConfigSandbox primaryProbeCmd 5000 st1)).
  pose (st3 := snd (runCommand mockImports noConfigSandbox legacyProbeCmd 5000 st2)).
  pose (absent := {| cmd_stdout := EmptyString; cmd_stderr := EmptyString;
                     cmd_status := "completed" |}).
  exists st3.
  refine (proj1 (syncToR2_no_config_file nat mockImports noConfigSandbox createMockEnvWithR2
                   2000 90 (fresh 0) st1 st2 st3 absent absent _ _ _ _ _ _));
    vm_compute; reflexivity.
Defined.

(** C5, as the code has it: a probe that throws ends the blocking sync.
    When the probe of the primary path throws, or answers without the
    sentinel and the probe of the legacy path throws, [syncToR2] returns the
    failure "Failed to verify source files" with the message of the error,
    right after the throwing probe: no candidate is tried after it and no
    copy command is started. *)
Theorem syncToR2_probe_throws :
  forall (W : Type) (imports : Imports W) (sandbox : Sandbox W) (env : MoltbotEnv)
         (pollIntervalMs maxPolls : Z) (st st1 st2 : State W) (err : Thrown),
    credentialsMissing env = false ->
    mountR2Storage imports sandbox env st = (Returns true, st1) ->
    (runCommand imports sandbox primaryProbeCmd 5000%Z st1 = (Throws err, st2)
     \/ exists checkNew st',
          runCommand imports sandbox primaryProbeCmd 5000%Z st1 = (Returns checkNew, st')
          /\ JsString.includes "exists" (cmd_stdout checkNew) = false
          /\ runCommand imports sandbox legacyProbeCmd 5000%Z st' = (Throws err, st2)) ->
    syncToR2 imports sandbox env pollIntervalMs maxPolls st
    = (Returns (verifyFailed err), st2)
    /\ error (verifyFailed err) = Some "Failed to verify source files"
    /\ details (verifyFailed err) = Some (errorDetails err).
Proof.
  intros W imports sandbox env pollIntervalMs maxPolls st st1 st2 err Hcred Hmount Hprobe.
  split; [|split; reflexivity].
  eapply syncToR2_early_return; eauto.
  destruct Hprobe as [H1 | (checkNew & st' & H1 & A1 & H2)].
  - now apply detectConfigDir_primary_throws.
  - now apply detectConfigDir_legacy_throws with st' checkNew.
Qed.

Lemma syncToR2_probe_throws_witness :
  exists st2,
    syncToR2 mockImports brokenProbeSandbox createMockEnvWithR2 2000 90 (fresh 0)
    = (Returns (verifyFailed (ErrorObject "sandbox unavailable")), st2).
Proof.
  pose (st1 := snd (mountR2Storage mockImports brokenProbeSandbox createMockEnvWithR2
                      (fresh 0))).
  pose (st2 := snd (runCommand mockImports brokenProbeSandbox primaryProbeCmd 5000 st1)).
  exists st2.
  refine (proj1 (syncToR2_probe_throws nat mockImports brokenProbeSandbox
                   createMockEnvWithR2 2000 90 (fresh 0) st1 st2
                   (ErrorObject "sandbox unavailable") _ _ _));
    [vm_compute; reflexivity | vm_compute; reflexivity | left; vm_compute; reflexivity].
Defined.

(** C5, as stated, fails: the probe of the primary path throws, the legacy
    path (which holds a config file) is never probed, and the sync ends
    with a failure that is not the "no config file found" result. *)
Lemma syncToR2_probe_failure_is_fatal :
  let run := syncToR2 mockImports brokenProbeSandbox createMockEnvWithR2 2000 90 (fresh 0) in
  fst (runCommand mockImports brokenProbeSandbox primaryProbeCmd 5000
         (snd (mountR2Storage mockImports brokenProbeSandbox createMockEnvWithR2 (fresh 0))))
  = Throws (ErrorObject "sandbox unavailable")
  /\ fst run = Returns (verifyFailed (ErrorObject "sandbox unavailable"))
  /\ startedCmds (calls (snd run)) = [mountProbeCmd; primaryProbeCmd]
  /\ fst run <> Returns noConfigFile.
Proof.
  cbv zeta. split; [reflexivity|]. split; [reflexivity|]. split; [reflexivity|].
  vm_compute. discriminate.
Qed.

(** * The polling loop *)

Lemma begins_matchesDatePrefix (s : string) :
  JsString.beginsWithDate s -> JsString.matchesDatePrefix s = true.
Proof.
  intros (y1 & y2 & y3 & y4 & m1 & m2 & d1 & d2 & rest & -> & F).
  repeat match goal with
         | H : Forall _ (_ :: _) |- _ => inversion H; clear H; subst
         end.
  cbn [JsString.matchesDatePrefix].
  repeat match goal with
         | H : JsString.isDigit _ = true |- _ => rewrite H; clear H
         end.
  reflexivity.
Qed.

Lemma validTimestamp_of_shape (s : string) :
  s <> "" -> JsString.beginsWithDate s -> validTimestamp s = true.
Proof.
  intros Hne Hdate. unfold validTimestamp.
  rewrite (begins_matchesDatePrefix s Hdate).
  destruct s; [contradiction|reflexivity].
Qed.

Lemma pollEvents_app (pollIntervalMs : Z) (k1 k2 : nat) (evs1 evs2 : list Event) :
  pollEvents pollIntervalMs k1 evs1 -> pollEvents pollIntervalMs k2 evs2 ->
  pollEvents pollIntervalMs (k1 + k2) (evs1 ++ evs2).
Proof.
  intros [S1 C1] [S2 C2]. split.
  - now rewrite filter_app, S1, S2, repeat_app.
  - now rewrite startedCmds_app, C1, C2, repeat_app.
Qed.

Lemma pollEvents_one (pollIntervalMs : Z) (rest : list Event) :
  Forall onHandle rest ->
  pollEvents pollIntervalMs 1
    (SetTimeout pollIntervalMs :: StartProcess markerReadCmd :: rest).
Proof.
  intros F. split; cbn.
  - now rewrite (onHandle_no_sleep rest F).
  - fold (startedCmds rest). now rewrite (onHandle_startedCmds rest F).
Qed.

Section Polling.
Context {W : Type} (imports : Imports W) (sandbox : Sandbox W) (pollIntervalMs : Z).

(** One iteration sleeps, reads the marker, and returns the value the read
    lets it observe. *)
Lemma pollOnce_spec (st : State W) :
  pollOnce imports sandbox pollIntervalMs st
  = (Returns (option_map synced
                (markerObserved
                   (fst (markerRead imports sandbox (slept imports pollIntervalMs st))))),
     snd (markerRead imports sandbox (slept imports pollIntervalMs st))).
Proof.
  unfold pollOnce, slept, markerRead.
  unfold bind at 1. unfold sleep, await. cbv beta iota. cbn [fst snd].
  unfold tryCatch, bind.
  destruct (runCommand imports sandbox markerReadCmd 10000%Z _) as [[ts|e] st'];
    cbn [fst snd markerObserved]; [|reflexivity].
  destruct (validTimestamp (JsString.trim (cmd_stdout ts))); reflexivity.
Qed.

Lemma pollOnce_falls_through (st : State W) :
  markerObserved (fst (markerRead imports sandbox (slept imports pollIntervalMs st))) = None ->
  fst (pollOnce imports sandbox pollIntervalMs st) = Returns None.
Proof. intros H. rewrite pollOnce_spec. cbn [fst]. now rewrite H. Qed.

Lemma pollOnce_finds (st st' : State W) (ts : CommandResult) :
  markerRead imports sandbox (slept imports pollIntervalMs st) = (Returns ts, st') ->
  validTimestamp (JsString.trim (cmd_stdout ts)) = true ->
  pollOnce imports sandbox pollIntervalMs st
  = (Returns (Some (synced (JsString.trim (cmd_stdout ts)))), st').
Proof.
  intros Hread Hvalid. rewrite pollOnce_spec, Hread. cbn [fst snd markerObserved].
  now rewrite Hvalid.
Qed.

Lemma afterPolls_shift (k : nat) (st : State W) :
  afterPolls imports sandbox pollIntervalMs (S k) st
  = afterPolls imports sandbox pollIntervalMs k
      (snd (pollOnce imports sandbox pollIntervalMs st)).
Proof.
  induction k as [|k IH]; [reflexivity|].
  change (afterPolls imports sandbox pollIntervalMs (S (S k)) st)
    with (snd (pollOnce imports sandbox pollIntervalMs
                 (afterPolls imports sandbox pollIntervalMs (S k) st))).
  now rewrite IH.
Qed.

Lemma pollLoop_skip (k n : nat) (st : State W) :
  (forall j, (j < k)%nat ->
     fst (pollOnce imports sandbox pollIntervalMs
            (afterPolls imports sandbox pollIntervalMs j st)) = Returns None) ->
  pollLoop imports sandbox pollIntervalMs (k + n) st
  = pollLoop imports sandbox pollIntervalMs n
      (afterPolls imports sandbox pollIntervalMs k st).
Proof.
  revert st. induction k as [|k IH]; intros st H; [reflexivity|].
  rewrite afterPolls_shift. rewrite <- IH.
  - pose proof (H 0%nat (Nat.lt_0_succ k)) as H0. cbn [afterPolls] in H0.
    cbn [Nat.add pollLoop].
    destruct (pollOnce imports sandbox pollIntervalMs st) as [r st1] eqn:E.
    cbn [fst] in H0. subst r.
    now rewrite (bind_returns _ _ _ _ _ E).
  - intros j Hj. rewrite <- afterPolls_shift. apply H. lia.
Qed.

Lemma pollOnce_calls (st : State W) :
  exists rest,
    callsSince st (snd (pollOnce imports sandbox pollIntervalMs st))
      (SetTimeout pollIntervalMs :: StartProcess markerReadCmd :: rest)
    /\ Forall onHandle rest.
Proof.
  rewrite pollOnce_spec. cbn [snd].
  destruct (runCommand_calls imports sandbox markerReadCmd 10000%Z
              (slept imports pollIntervalMs st)) as (evs & E & rest & -> & F).
  exists rest. split; [|exact F].
  unfold callsSince, markerRead in *. rewrite E. cbn. now rewrite <- app_assoc.
Qed.

Lemma afterPolls_calls (k : nat) (st : State W) :
  exists evs,
    callsSince st (afterPolls imports sandbox pollIntervalMs k st) evs
    /\ pollEvents pollIntervalMs k evs.
Proof.
  induction k as [|k (evs & E & P)].
  - exists []. split; [apply callsSince_refl | now split].
  - destruct (pollOnce_calls (afterPolls imports sandbox pollIntervalMs k st))
      as (rest & E1 & F).
    eexists. split; [eapply callsSince_trans; [exact E | exact E1]|].
    replace (S k) with (k + 1)%nat by lia.
    apply pollEvents_app; [exact P | now apply pollEvents_one].
Qed.

(** The loop polls at most [remaining] times. *)
Lemma pollLoop_calls (remaining : nat) (st : State W) :
  exists polls evs,
    (polls <= remaining)%nat
    /\ callsSince st (snd (pollLoop imports sandbox pollIntervalMs remaining st)) evs
    /\ pollEvents pollIntervalMs polls evs.
Proof.
  revert st. induction remaining as [|n IH]; intros st.
  - exists 0%nat, []. split; [lia|]. split; [apply callsSince_refl | now split].
  - destruct (pollOnce_calls st) as (rest & E1 & F).
    cbn [pollLoop]. unfold bind.
    destruct (pollOnce imports sandbox pollIntervalMs st) as [[[result|]|e] st1];
      cbn [snd] in *.
    + exists 1%nat. eexists. split; [lia|]. split; [exact E1|].
      now apply pollEvents_one.
    + destruct (IH st1) as (polls & evs & Hle & E2 & P).
      exists (1 + polls)%nat. eexists. split; [lia|].
      split; [eapply callsSince_trans; [exact E1 | exact E2]|].
      apply pollEvents_app; [now apply pollEvents_one | exact P].
    + exists 1%nat. eexists. split; [lia|]. split; [exact E1|].
      now apply pollEvents_one.
Qed.

Lemma syncToR2_polling (env : MoltbotEnv) (maxPolls : Z) (st st0 : State W) :
  beforePolling imports sandbox env st = Some st0 ->
  syncToR2 imports sandbox env pollIntervalMs maxPolls st
  = pollLoop imports sandbox pollIntervalMs (Z.to_nat maxPolls) st0.
Proof.
  unfold beforePolling, syncToR2.
  destruct (credentialsMissing env); [discriminate|].
  unfold bind at 1.
  destruct (mountR2Storage imports sandbox env st) as [[[|]|e] st1]; try discriminate.
  cbn [negb]. unfold bind at 1.
  destruct (detectConfigDir imports sandbox st1) as [[[aborted|configDir]|e] st2];
    try discriminate.
  cbv zeta. unfold bind at 1.
  destruct (launchSync sandbox (buildSyncCmd configDir) st2) as [[[failed|]|e] st3];
    try discriminate.
  now intros [= ->].
Qed.

(** The loop returns on the first read that observes a valid value. *)
Lemma syncToR2_returns_at_poll (env : MoltbotEnv) (maxPolls : Z) (st st0 st' : State W)
    (k : nat) (ts : CommandResult) :
  beforePolling imports sandbox env st = Some st0 ->
  (k < Z.to_nat maxPolls)%nat ->
  (forall j, (j < k)%nat ->
     markerObserved
       (fst (markerRead imports sandbox
               (slept imports pollIntervalMs
                  (afterPolls imports sandbox pollIntervalMs j st0)))) = None) ->
  markerRead imports sandbox
    (slept imports pollIntervalMs (afterPolls imports sandbox pollIntervalMs k st0))
  = (Returns ts, st') ->
  validTimestamp (JsString.trim (cmd_stdout ts)) = true ->
  syncToR2 imports sandbox env pollIntervalMs maxPolls st
  = (Returns (synced (JsString.trim (cmd_stdout ts))), st').
Proof.
  intros Hstart Hk Hbefore Hread Hvalid.
  rewrite (syncToR2_polling env maxPolls st st0 Hstart).
  replace (Z.to_nat maxPolls) with (k + S (Z.to_nat maxPolls - S k))%nat by lia.
  rewrite pollLoop_skip.
  - cbn [pollLoop].
    now rewrite (bind_returns _ _ _ _ _ (pollOnce_finds _ _ _ Hread Hvalid)).
  - intros j Hj. now apply pollOnce_falls_through, Hbefore.
Qed.

End Polling.

(** C2: once the copy command is started, [syncToR2] polls at most
    [maxPolls] times, each poll after one delay of [pollIntervalMs]; and
    when the polls before attempt [k + 1 <= maxPolls] observe nothing and
    the read of attempt [k + 1] yields a valid value (the trimmed marker
    content), [syncToR2] returns success with that value right after this
    read, having waited exactly [k + 1] poll intervals and read the marker
    [k + 1] times. *)
Theorem syncToR2_polls_until_marker :
  forall (W : Type) (imports : Imports W) (sandbox : Sandbox W) (env : MoltbotEnv)
         (pollIntervalMs maxPolls : Z) (st st0 : State W),
    beforePolling imports sandbox env st = Some st0 ->
    (exists polls evs,
       (polls <= Z.to_nat maxPolls)%nat
       /\ callsSince st0 (snd (syncToR2 imports sandbox env pollIntervalMs maxPolls st)) evs
       /\ pollEvents pollIntervalMs polls evs)
    /\ forall (k : nat) (ts : CommandResult) (st' : State W),
         (k < Z.to_nat maxPolls)%nat ->
         (forall j, (j < k)%nat ->
            markerObserved
              (fst (markerRead imports sandbox
                      (slept imports pollIntervalMs
                         (afterPolls imports sandbox pollIntervalMs j st0)))) = None) ->
         markerRead imports sandbox
           (slept imports pollIntervalMs (afterPolls imports sandbox pollIntervalMs k st0))
         = (Returns ts, st') ->
         validTimestamp (JsString.trim (cmd_stdout ts)) = true ->
         syncToR2 imports sandbox env pollIntervalMs maxPolls st
         = (Returns {| success := true;
                       lastSync := Some (JsString.trim (cmd_stdout ts));
                       error := None;
                       details := None |}, st')
         /\ exists evs, callsSince st0 st' evs /\ pollEvents pollIntervalMs (S k) evs.
Proof.
  intros W imports sandbox env pollIntervalMs maxPolls st st0 Hstart. split.
  - rewrite (syncToR2_polling imports sandbox pollIntervalMs env maxPolls st st0 Hstart).
    apply pollLoop_calls.
  - intros k ts st' Hk Hbefore Hread Hvalid. split.
    + now apply (syncToR2_returns_at_poll imports sandbox pollIntervalMs env maxPolls
                   st st0 st' k ts).
    + destruct (afterPolls_calls imports sandbox pollIntervalMs k st0) as (evs & E & P).
      destruct (pollOnce_calls imports sandbox pollIntervalMs
                  (afterPolls imports sandbox pollIntervalMs k st0)) as (rest & E1 & F).
      rewrite (pollOnce_finds imports sandbox pollIntervalMs _ _ _ Hread Hvalid) in E1.
      cbn [snd] in E1.
      eexists. split; [eapply callsSince_trans; [exact E | exact E1]|].
      replace (S k) with (k + 1)%nat by lia.
      apply pollEvents_app; [exact P | now apply pollEvents_one].
Qed.

Lemma syncToR2_polls_until_marker_witness :
  exists st',
    syncToR2 mockImports slowSandbox createMockEnvWithR2 2000 90 (fresh 0)
    = (Returns (synced timestamp), st')
    /\ exists evs, callsSince (startOfPolling slowSandbox) st' evs /\ pollEvents 2000 3 evs.
Proof.
  pose (st0 := startOfPolling slowSandbox).
  pose (ts := {| cmd_stdout := timestamp ++ lf; cmd_stderr := EmptyString;
                 cmd_status := "completed" |}).
  pose (st' := snd (markerRead mockImports slowSandbox
                      (slept mockImports 2000
                         (afterPolls mockImports slowSandbox 2000 2 st0)))).
  assert (B : beforePolling mockImports slowSandbox createMockEnvWithR2 (fresh 0) = Some st0)
    by (vm_compute; reflexivity).
  destruct (syncToR2_polls_until_marker nat mockImports slowSandbox createMockEnvWithR2
              2000 90 (fresh 0) st0 B) as [_ H].
  exists st'.
  assert (T : JsString.trim (cmd_stdout ts) = timestamp) by (vm_compute; reflexivity).
  rewrite <- T.
  apply (H 2%nat ts st').
  - vm_compute. lia.
  - intros [|[|j]] Hj; [vm_compute; reflexivity | vm_compute; reflexivity | lia].
  - vm_compute. reflexivity.
  - vm_compute. reflexivity.
Defined.

(** C3, as the code has it: at every marker read of the polling loop, a
    content whose trimmed value is not empty and begins with four digits, a
    hyphen, two digits, a hyphen and two digits is a success: [syncToR2]
    returns right after that read, with the trimmed value as [lastSync]. *)
Theorem syncToR2_valid_marker_returns :
  forall (W : Type) (imports : Imports W) (sandbox : Sandbox W) (env : MoltbotEnv)
         (pollIntervalMs maxPolls : Z) (st st0 st' : State W) (k : nat)
         (ts : CommandResult),
    beforePolling imports sandbox env st = Some st0 ->
    (k < Z.to_nat maxPolls)%nat ->
    (forall j, (j < k)%nat ->
       fst (pollOnce imports sandbox pollIntervalMs
              (afterPolls imports sandbox pollIntervalMs j st0)) = Returns None) ->
    markerRead imports sandbox
      (slept imports pollIntervalMs (afterPolls imports sandbox pollIntervalMs k st0))
    = (Returns ts, st') ->
    JsString.trim (cmd_stdout ts) <> "" ->
    JsString.beginsWithDate (JsString.trim (cmd_stdout ts)) ->
    syncToR2 imports sandbox env pollIntervalMs maxPolls st
    = (Returns {| success := true;
                  lastSync := Some (JsString.trim (cmd_stdout ts));
                  error := None;
                  details := None |}, st').
Proof.
  intros W imports sandbox env pollIntervalMs maxPolls st st0 st' k ts
         Hstart Hk Hbefore Hread Hne Hdate.
  pose proof (validTimestamp_of_shape _ Hne Hdate) as Hvalid.
  rewrite (syncToR2_polling imports sandbox pollIntervalMs env maxPolls st st0 Hstart).
  replace (Z.to_nat maxPolls) with (k + S (Z.to_nat maxPolls - S k))%nat by lia.
  rewrite (pollLoop_skip imports sandbox pollIntervalMs k _ st0 Hbefore).
  cbn [pollLoop].
  now rewrite (bind_returns _ _ _ _ _
                 (pollOnce_finds imports sandbox pollIntervalMs _ _ _ Hread Hvalid)).
Qed.

Lemma syncToR2_valid_marker_returns_witness :
  exists st',
    syncToR2 mockImports syncedSandbox createMockEnvWithR2 2000 90 (fresh 0)
    = (Returns (synced timestamp), st').
Proof.
  pose (st0 := startOfPolling syncedSandbox).
  pose (ts := {| cmd_stdout := timestamp; cmd_stderr := EmptyString;
                 cmd_status := "completed" |}).
  pose (st' := snd (markerRead mockImports syncedSandbox (slept mockImports 2000 st0))).
  exists st'.
  refine (syncToR2_valid_marker_returns nat mockImports syncedSandbox createMockEnvWithR2
            2000 90 (fresh 0) st0 st' 0%nat ts _ _ _ _ _ _).
  - vm_compute. reflexivity.
  - vm_compute. lia.
  - intros j Hj. lia.
  - vm_compute. reflexivity.
  - vm_compute. discriminate.
  - apply matchesDatePrefix_begins. vm_compute. reflexivity.
Defined.

(** C3, as stated, fails: the marker content "2026-01" is not empty and
    matches four digits, a hyphen and two digits, yet every poll falls
    through and the sync times out. *)
Lemma syncToR2_year_month_marker_times_out :
  JsString.nonEmpty "2026-01" = true
  /\ JsString.matchesYearMonthPrefix "2026-01" = true
  /\ match beforePolling mockImports yearMonthSandbox createMockEnvWithR2 (fresh 0) with
     | Some st0 =>
         option_map cmd_stdout
           (match fst (markerRead mockImports yearMonthSandbox (slept mockImports 10 st0)) with
            | Returns ts => Some ts
            | Throws _ => None
            end) = Some "2026-01"
     | None => False
     end
  /\ fst (syncToR2 mockImports yearMonthSandbox createMockEnvWithR2 10 3 (fresh 0))
     = Returns timedOut.
Proof. repeat split; reflexivity. Qed.

(** C4: when none of the [maxPolls] marker reads observes a valid value
    (each read throws, or yields a value that is empty or does not begin
    with a date), [syncToR2] returns the failure "Sync timed out" after
    exactly [maxPolls] polls; that result differs from those of a failed
    mount and of a failed launch. *)
Theorem syncToR2_times_out :
  forall (W : Type) (imports : Imports W) (sandbox : Sandbox W) (env : MoltbotEnv)
         (pollIntervalMs maxPolls : Z) (st st0 : State W),
    beforePolling imports sandbox env st = Some st0 ->
    (forall j, (j < Z.to_nat maxPolls)%nat ->
       markerObserved
         (fst (markerRead imports sandbox
                 (slept imports pollIntervalMs
                    (afterPolls imports sandbox pollIntervalMs j st0)))) = None) ->
    syncToR2 imports sandbox env pollIntervalMs maxPolls st
    = (Returns {| success := false;
                  lastSync := None;
                  error := Some "Sync timed out";
                  details := Some "Timestamp file not created within 3 minutes" |},
       afterPolls imports sandbox pollIntervalMs (Z.to_nat maxPolls) st0)
    /\ timedOut <> mountFailed
    /\ (forall err, timedOut <> launchFailed err)
    /\ exists evs,
         callsSince st0 (afterPolls imports sandbox pollIntervalMs (Z.to_nat maxPolls) st0) evs
         /\ pollEvents pollIntervalMs (Z.to_nat maxPolls) evs.
Proof.
  intros W imports sandbox env pollIntervalMs maxPolls st st0 Hstart Hnone.
  split; [|split; [discriminate | split; [discriminate | apply afterPolls_calls]]].
  rewrite (syncToR2_polling imports sandbox pollIntervalMs env maxPolls st st0 Hstart).
  replace (Z.to_nat maxPolls) with (Z.to_nat maxPolls + 0)%nat at 1 by lia.
  rewrite pollLoop_skip; [reflexivity|].
  intros j Hj. now apply pollOnce_falls_through, Hnone.
Qed.

Lemma syncToR2_times_out_witness :
  exists st',
    syncToR2 mockImports neverSyncedSandbox createMockEnvWithR2 10 3 (fresh 0)
    = (Returns timedOut, st').
Proof.
  pose (st0 := startOfPolling neverSyncedSandbox).
  eexists.
  refine (proj1 (syncToR2_times_out nat mockImports neverSyncedSandbox createMockEnvWithR2
                   10 3 (fresh 0) st0 _ _)).
  - vm_compute. reflexivity.
  - intros [|[|[|j]]] Hj;
      [vm_compute; reflexivity | vm_compute; reflexivity | vm_compute; reflexivity |].
    exfalso. vm_compute in Hj. lia.
Defined.

Lemma syncToR2_result_wellFormed_witness :
  wellFormed (synced timestamp).
Proof.
  apply (syncToR2_result_wellFormed nat mockImports syncedSandbox createMockEnvWithR2
           2000 90 (fresh 0)).
  vm_compute. reflexivity.
Defined.

(** * More on the mount coordinator *)

Lemma count_app (kind : Event -> bool) (evs1 evs2 : list Event) :
  count kind (evs1 ++ evs2) = (count kind evs1 + count kind evs2)%nat.
Proof. unfold count. now rewrite filter_app, length_app. Qed.

Lemma onHandle_count (kind : Event -> bool) (evs : list Event) :
  (forall ev, onHandle ev -> kind ev = false) ->
  Forall onHandle evs -> count kind evs = 0%nat.
Proof.
  intros Hkind. induction 1 as [|ev evs H _ IH]; [reflexivity|].
  unfold count in *. cbn. now rewrite (Hkind ev H).
Qed.

Lemma onHandle_not_mount (ev : Event) : onHandle ev -> isMountBucket ev = false.
Proof. destruct ev; cbn; auto; contradiction. Qed.

Lemma onHandle_not_sleep (ev : Event) : onHandle ev -> isSleep ev = false.
Proof. destruct ev; cbn; auto; contradiction. Qed.

Lemma probeCalls_started (evs : list Event) :
  probeCalls evs -> startedCmds evs = [mountProbeCmd].
Proof.
  intros (rest & -> & F). cbn. fold (startedCmds rest).
  now rewrite (onHandle_startedCmds rest F).
Qed.

Lemma probeCalls_no_mount (evs : list Event) :
  probeCalls evs -> count isMountBucket evs = 0%nat.
Proof.
  intros (rest & -> & F). unfold count. cbn.
  apply (onHandle_count isMountBucket rest onHandle_not_mount F).
Qed.

Lemma probeCalls_no_sleep (evs : list Event) :
  probeCalls evs -> count isSleep evs = 0%nat.
Proof.
  intros (rest & -> & F). unfold count. cbn.
  apply (onHandle_count isSleep rest onHandle_not_sleep F).
Qed.

Lemma reportsMounted_iff (logs : Logs) :
  reportsMounted logs = true
  <-> exists out, stdout logs = Some out
                  /\ JsString.includes "mounted" out = true
                  /\ JsString.includes "not-mounted" out = false.
Proof.
  unfold reportsMounted. destruct (stdout logs) as [out|].
  - split.
    + intros H. rewrite !andb_true_iff, negb_true_iff in H.
      destruct H as [[_ H1] H2]. eauto.
    + intros (o & [= <-] & H1 & H2). rewrite H1, H2.
      destruct out; [cbn in H1; discriminate H1 | reflexivity].
  - split; [discriminate | intros (o & E & _); discriminate E].
Qed.

Section MountCoordinator.
Context {W : Type} (imports : Imports W) (sandbox : Sandbox W).

Lemma isR2Mounted_calls : emits probeCalls (isR2Mounted imports sandbox).
Proof.
  intros st. unfold isR2Mounted, callsSince, probeCalls, tryCatch, bind, await, log, ret.
  destruct (startProcess sandbox mountProbeCmd (world st)) as [[proc|e] w1]; cbn.
  2: { eexists. split; [reflexivity|]. eexists. split; [reflexivity | constructor]. }
  destruct (waitForProcess imports proc 5000%Z w1) as [[[]|e] w2]; cbn.
  2: { rewrite <- app_assoc. eexists. split; [reflexivity|].
       eexists. split; [reflexivity | now repeat constructor]. }
  destruct (getLogs proc w2) as [[logs|e] w3]; cbn;
    rewrite <- !app_assoc; (eexists; split; [reflexivity|]);
    (eexists; split; [reflexivity | now repeat constructor]).
Qed.

Lemma isR2Mounted_returns (st : State W) :
  exists b st', isR2Mounted imports sandbox st = (Returns b, st').
Proof.
  destruct (settles_returns _ _ st (isR2Mounted_settles imports sandbox))
    as (b & st' & E & _).
  now exists b, st'.
Qed.

Lemma mountR2Storage_mounted_eq (env : MoltbotEnv) (st st1 : State W) :
  credentialsMissing env = false ->
  isR2Mounted imports sandbox st = (Returns true, st1) ->
  mountR2Storage imports sandbox env st
  = (Returns true,
     {| world := world st1;
        calls := calls st1;
        console := (console st1 ++ [["R2 bucket already mounted at"; R2_MOUNT_PATH]])%list |}).
Proof.
  intros Hcred Hfirst. unfold mountR2Storage. rewrite Hcred.
  now rewrite (bind_returns _ _ _ _ _ Hfirst).
Qed.

Lemma mountR2Storage_success_eq (env : MoltbotEnv) (st st1 : State W) (w2 : W) :
  credentialsMissing env = false ->
  isR2Mounted imports sandbox st = (Returns false, st1) ->
  mountBucket sandbox (getR2BucketName imports env) R2_MOUNT_PATH (mountOptions env)
    (world st1) = (Returns tt, w2) ->
  mountR2Storage imports sandbox env st
  = (Returns true,
     {| world := w2;
        calls := (calls st1 ++ [mountCall imports env])%list;
        console :=
          ((console st1
            ++ [["Mounting R2 bucket"; getR2BucketName imports env; "at"; R2_MOUNT_PATH]])
           ++ [["R2 bucket mounted successfully - moltbot data will persist across sessions"]])%list
     |}).
Proof.
  intros Hcred Hfirst Hmount. unfold mountR2Storage. rewrite Hcred.
  rewrite (bind_returns _ _ _ _ _ Hfirst).
  unfold tryCatch, bind, log, await, ret. cbn [world calls console].
  rewrite Hmount. reflexivity.
Qed.

Lemma mountR2Storage_throw_eq (env : MoltbotEnv) (st st1 st3 : State W) (err : Thrown)
    (w2 : W) (recheck : bool) :
  credentialsMissing env = false ->
  isR2Mounted imports sandbox st = (Returns false, st1) ->
  mountBucket sandbox (getR2BucketName imports env) R2_MOUNT_PATH (mountOptions env)
    (world st1) = (Throws err, w2) ->
  isR2Mounted imports sandbox (afterMountError imports env err st1 w2)
  = (Returns recheck, st3) ->
  mountR2Storage imports sandbox env st
  = (Returns recheck,
     {| world := world st3;
        calls := calls st3;
        console :=
          (console st3
           ++ [if recheck then ["R2 bucket is mounted despite error"]
               else ["Failed to mount R2 bucket:"; showThrown err]])%list |}).
Proof.
  intros Hcred Hfirst Hmount Hrecheck.
  unfold mountR2Storage. rewrite Hcred.
  rewrite (bind_returns _ _ _ _ _ Hfirst).
  unfold tryCatch.
  unfold bind at 1. unfold log at 1. cbv beta iota.
  unfold bind at 1. unfold await at 1. cbn [world calls console].
  rewrite Hmount. cbv beta iota zeta.
  unfold bind at 1. unfold log at 1. cbn [world calls console].
  fold (afterMountError imports env err st1 w2).
  rewrite (bind_returns _ _ _ _ _ Hrecheck).
  destruct recheck; reflexivity.
Qed.

(** The three ways a configured [mountR2Storage] runs. *)
Lemma mountR2Storage_cases (env : MoltbotEnv) (st : State W) :
  credentialsMissing env = false ->
  exists probe1,
    probeCalls probe1
    /\ ((fst (mountR2Storage imports sandbox env st) = Returns true
         /\ callsSince st (snd (mountR2Storage imports sandbox env st)) probe1)
        \/ (fst (mountR2Storage imports sandbox env st) = Returns true
            /\ callsSince st (snd (mountR2Storage imports sandbox env st))
                 (probe1 ++ [mountCall imports env]))
        \/ (exists recheck probe2,
              probeCalls probe2
              /\ fst (mountR2Storage imports sandbox env st) = Returns recheck
              /\ callsSince st (snd (mountR2Storage imports sandbox env st))
                   ((probe1 ++ [mountCall imports env]) ++ probe2))).
Proof.
  intros Hcred.
  destruct (isR2Mounted_calls st) as (probe1 & E1 & P1).
  destruct (isR2Mounted_returns st) as ([|] & st1 & Hfirst);
    rewrite Hfirst in E1; cbn [snd] in E1; exists probe1; (split; [exact P1|]).
  - left. rewrite (mountR2Storage_mounted_eq env st st1 Hcred Hfirst). now split.
  - destruct (mountBucket sandbox (getR2BucketName imports env) R2_MOUNT_PATH
                (mountOptions env) (world st1)) as [[[]|err] w2] eqn:Hmount.
    + right. left.
      rewrite (mountR2Storage_success_eq env st st1 w2 Hcred Hfirst Hmount).
      split; [reflexivity|]. unfold callsSince in *. cbn. now rewrite E1, app_assoc.
    + right. right.
      destruct (isR2Mounted_calls (afterMountError imports env err st1 w2))
        as (probe2 & E2 & P2).
      destruct (isR2Mounted_returns (afterMountError imports env err st1 w2))
        as (recheck & st3 & Hrecheck).
      rewrite Hrecheck in E2. cbn [snd] in E2.
      exists recheck, probe2. split; [exact P2|].
      rewrite (mountR2Storage_throw_eq env st st1 st3 err w2 recheck
                 Hcred Hfirst Hmount Hrecheck).
      split; [reflexivity|]. unfold callsSince in *. cbn [snd calls].
      rewrite E2. unfold afterMountError. cbn [calls]. fold (mountCall imports env).
      now rewrite E1, !app_assoc.
Qed.

End MountCoordinator.

(** X1: [isR2Mounted] never throws, and answers [true] exactly when the
    probe command could be started, waited for and its logs read, and its
    output holds [mounted] but not [not-mounted]; otherwise (a call throws,
    no output, [not-mounted]) it answers [false]. *)
Theorem isR2Mounted_true_iff :
  forall (W : Type) (imports : Imports W) (sandbox : Sandbox W) (st : State W),
    (exists b, fst (isR2Mounted imports sandbox st) = Returns b)
    /\ (fst (isR2Mounted imports sandbox st) = Returns true
        <-> probeEvidence imports sandbox st).
Proof.
  intros W imports sandbox st. split.
  - destruct (isR2Mounted_returns imports sandbox st) as (b & st' & E).
    exists b. now rewrite E.
  - unfold probeEvidence. split.
    + unfold isR2Mounted, tryCatch, bind, await, log, ret.
      destruct (startProcess sandbox mountProbeCmd (world st)) as [[proc|e] w1];
        cbn; [|discriminate].
      destruct (waitForProcess imports proc 5000%Z w1) as [[[]|e] w2] eqn:E2;
        cbn; [|discriminate].
      destruct (getLogs proc w2) as [[logs|e] w3] eqn:E3; cbn; [|discriminate].
      intros [= H]. apply reportsMounted_iff in H. destruct H as (out & Eo & H1 & H2).
      exists proc, w1, w2, logs, w3, out. auto 10.
    + intros (proc & w1 & w2 & logs & w3 & out & E1 & E2 & E3 & Eo & H1 & H2).
      unfold isR2Mounted, tryCatch, bind, await, log, ret.
      rewrite E1. cbn. rewrite E2. cbn. rewrite E3. cbn.
      f_equal. apply reportsMounted_iff. eauto.
Qed.

(** X2: idempotency.  When the probe of the mount table reports the path
    mounted, [mountR2Storage] returns [true] without invoking the mount
    primitive: its only calls are those of the probe. *)
Theorem mountR2Storage_already_mounted :
  forall (W : Type) (imports : Imports W) (sandbox : Sandbox W) (env : MoltbotEnv)
         (st st1 : State W),
    credentialsMissing env = false ->
    isR2Mounted imports sandbox st = (Returns true, st1) ->
    fst (mountR2Storage imports sandbox env st) = Returns true
    /\ world (snd (mountR2Storage imports sandbox env st)) = world st1
    /\ calls (snd (mountR2Storage imports sandbox env st)) = calls st1
    /\ exists evs,
         callsSince st (snd (mountR2Storage imports sandbox env st)) evs
         /\ startedCmds evs = [mountProbeCmd]
         /\ count isMountBucket evs = 0%nat.
Proof.
  intros W imports sandbox env st st1 Hcred Hfirst.
  rewrite (mountR2Storage_mounted_eq imports sandbox env st st1 Hcred Hfirst).
  cbn [fst snd world calls]. repeat split.
  destruct (isR2Mounted_calls imports sandbox st) as (evs & E & P).
  rewrite Hfirst in E. cbn [snd] in E.
  exists evs. split; [exact E|].
  split; [now apply probeCalls_started | now apply probeCalls_no_mount].
Qed.

(** X3: when the path is not mounted and the mount primitive returns,
    [mountR2Storage] returns [true] right after it, without a recheck.  The
    primitive is called once, with the bucket name of the configuration,
    the fixed mount path, the endpoint of the account and the two keys of
    the environment. *)
Theorem mountR2Storage_mounts :
  forall (W : Type) (imports : Imports W) (sandbox : Sandbox W) (env : MoltbotEnv)
         (st st1 : State W) (w2 : W),
    credentialsMissing env = false ->
    isR2Mounted imports sandbox st = (Returns false, st1) ->
    mountBucket sandbox (getR2BucketName imports env) R2_MOUNT_PATH (mountOptions env)
      (world st1) = (Returns tt, w2) ->
    fst (mountR2Storage imports sandbox env st) = Returns true
    /\ world (snd (mountR2Storage imports sandbox env st)) = w2
    /\ exists account,
         CF_ACCOUNT_ID env = Some account
         /\ calls (snd (mountR2Storage imports sandbox env st))
            = (calls st1
               ++ [MountBucket (getR2BucketName imports env) "/data/moltbot"
                     {| endpoint := "https://" ++ account ++ ".r2.cloudflarestorage.com";
                        accessKeyId := R2_ACCESS_KEY_ID env;
                        secretAccessKey := R2_SECRET_ACCESS_KEY env |}])%list.
Proof.
  intros W imports sandbox env st st1 w2 Hcred Hfirst Hmount.
  rewrite (mountR2Storage_success_eq imports sandbox env st st1 w2 Hcred Hfirst Hmount).
  cbn [fst snd world calls]. repeat split.
  unfold credentialsMissing in Hcred.
  destruct (CF_ACCOUNT_ID env) as [account|] eqn:Ea.
  - exists account. split; [reflexivity|].
    unfold mountCall, mountOptions. now rewrite Ea.
  - cbn in Hcred. rewrite orb_true_r in Hcred. discriminate.
Qed.

(** X4: [mountR2Storage] never throws: whatever the sandbox does, it
    returns a boolean. *)
Theorem mountR2Storage_never_throws :
  forall (W : Type) (imports : Imports W) (sandbox : Sandbox W) (env : MoltbotEnv)
         (st : State W),
  exists (mounted : bool) (st' : State W),
    mountR2Storage imports sandbox env st = (Returns mounted, st').
Proof.
  intros.
  destruct (settles_returns _ _ st (mountR2Storage_settles imports sandbox env))
    as (b & st' & E & _).
  now exists b, st'.
Qed.

(** X5: in every run, [mountR2Storage] invokes the mount primitive at most
    once and probes the mount table at most twice; it starts no other
    command and never waits on a timer. *)
Theorem mountR2Storage_bounded_calls :
  forall (W : Type) (imports : Imports W) (sandbox : Sandbox W) (env : MoltbotEnv)
         (st : State W),
  exists evs,
    callsSince st (snd (mountR2Storage imports sandbox env st)) evs
    /\ (count isMountBucket evs <= 1)%nat
    /\ (length (startedCmds evs) <= 2)%nat
    /\ Forall (eq mountProbeCmd) (startedCmds evs)
    /\ count isSleep evs = 0%nat.
Proof.
  intros W imports sandbox env st.
  destruct (credentialsMissing env) eqn:Hcred.
  - exists []. unfold mountR2Storage. rewrite Hcred. cbn.
    split; [unfold callsSince; cbn; now rewrite app_nil_r|].
    repeat split; auto.
  - destruct (mountR2Storage_cases imports sandbox env st Hcred)
      as (probe1 & P1 & [[_ E] | [[_ E] | (recheck & probe2 & P2 & _ & E)]]);
      eexists; (split; [exact E|]);
      rewrite ?count_app, ?startedCmds_app, ?length_app,
        ?(probeCalls_started _ P1), ?(probeCalls_started _ P2),
        ?(probeCalls_no_mount _ P1), ?(probeCalls_no_mount _ P2),
        ?(probeCalls_no_sleep _ P1), ?(probeCalls_no_sleep _ P2);
      cbn; repeat split; auto.
Qed.

(** X6: with the credentials present, [mountR2Storage] returns [false]
    only after it has invoked the mount primitive once and rechecked the
    mount table: it never gives up without trying to mount. *)
Theorem mountR2Storage_false_after_attempt :
  forall (W : Type) (imports : Imports W) (sandbox : Sandbox W) (env : MoltbotEnv)
         (st : State W),
    credentialsMissing env = false ->
    fst (mountR2Storage imports sandbox env st) = Returns false ->
    exists probe1 probe2,
      callsSince st (snd (mountR2Storage imports sandbox env st))
        ((probe1 ++ [mountCall imports env]) ++ probe2)
      /\ probeCalls probe1 /\ probeCalls probe2.
Proof.
  intros W imports sandbox env st Hcred Hfalse.
  destruct (mountR2Storage_cases imports sandbox env st Hcred)
    as (probe1 & P1 & [[E _] | [[E _] | (recheck & probe2 & P2 & _ & E)]]).
  - rewrite E in Hfalse. discriminate.
  - rewrite E in Hfalse. discriminate.
  - now exists probe1, probe2.
Qed.

(** * More rules for asynchronous computations *)

Section MoreRules.
Context {W : Type}.

Lemma ensures_tryCatch {A : Type} (P : A -> Prop) (body : Async W A) handler :
  ensures P body -> (forall e, ensures P (handler e)) -> ensures P (tryCatch body handler).
Proof.
  intros Hb Hh st. specialize (Hb st). unfold tryCatch.
  destruct (body st) as [[a|e] st']; cbn in *; [exact Hb | apply Hh].
Qed.

Lemma settles_ensures {A : Type} (P : A -> Prop) (m : Async W A) :
  settles P m -> ensures P m.
Proof.
  intros Hm st. specialize (Hm st). destruct (fst (m st)); [exact Hm | exact I].
Qed.

Lemma settles_and {A : Type} (P Q : A -> Prop) (m : Async W A) :
  settles P m -> ensures Q m -> settles (fun a => P a /\ Q a) m.
Proof.
  intros HP HQ st. specialize (HP st). specialize (HQ st).
  destruct (fst (m st)); [now split | exact HP].
Qed.

(** A continuation may rely on what the first computation ensures. *)
Lemma emits_bind_ensures {A B : Type} (P : Event -> Prop) (Q : A -> Prop)
    (m : Async W A) (k : A -> Async W B) :
  ensures Q m -> emits (Forall P) m -> (forall a, Q a -> emits (Forall P) (k a)) ->
  emits (Forall P) (bind m k).
Proof.
  intros HQ Hm Hk st. destruct (Hm st) as (evs1 & E1 & F1). specialize (HQ st).
  unfold bind. destruct (m st) as [[a|e] st1]; cbn in E1, HQ.
  - destruct (Hk a HQ st1) as (evs2 & E2 & F2).
    exists (evs1 ++ evs2)%list. split; [now apply callsSince_trans with st1|].
    apply Forall_app. now split.
  - now exists evs1.
Qed.

Lemma atMost_ret {A : Type} (kind : Event -> bool) (a : A) :
  atMost (W := W) kind 0 (ret a).
Proof. intros st. exists []. split; [apply callsSince_refl | apply Nat.le_refl]. Qed.

Lemma atMost_weaken {A : Type} (kind : Event -> bool) (n n' : nat) (m : Async W A) :
  (n <= n')%nat -> atMost kind n m -> atMost kind n' m.
Proof.
  intros Hle Hm st. destruct (Hm st) as (evs & E & H). exists evs. split; [exact E | lia].
Qed.

Lemma atMost_bind {A B : Type} (kind : Event -> bool) (n1 n2 : nat)
    (m : Async W A) (k : A -> Async W B) :
  atMost kind n1 m -> (forall a, atMost kind n2 (k a)) -> atMost kind (n1 + n2) (bind m k).
Proof.
  intros Hm Hk st. destruct (Hm st) as (evs1 & E1 & H1). unfold bind.
  destruct (m st) as [[a|e] st1]; cbn in E1.
  - destruct (Hk a st1) as (evs2 & E2 & H2).
    exists (evs1 ++ evs2)%list. split; [now apply callsSince_trans with st1|].
    rewrite count_app. lia.
  - exists evs1. split; [exact E1 | lia].
Qed.

Lemma atMost_none {A : Type} (kind : Event -> bool) (m : Async W A) :
  emits (Forall (fun ev => kind ev = false)) m -> atMost kind 0 m.
Proof.
  intros Hm st. destruct (Hm st) as (evs & E & F). exists evs. split; [exact E|].
  unfold count. clear E. induction F as [|ev evs H _ IH]; [reflexivity|].
  cbn. now rewrite H.
Qed.

Lemma count_one (kind : Event -> bool) (ev : Event) : (count kind [ev] <= 1)%nat.
Proof. unfold count. cbn. destruct (kind ev); cbn; lia. Qed.

End MoreRules.

(** * The calls of the two entry points *)

Section EntryPointCalls.
Context {W : Type} (imports : Imports W) (sandbox : Sandbox W).

Lemma detectConfigDir_emits (P : Event -> Prop) :
  P (StartProcess primaryProbeCmd) -> P (StartProcess legacyProbeCmd) ->
  (forall ev, onHandle ev -> P ev) ->
  emits (Forall P) (detectConfigDir imports sandbox).
Proof.
  intros Hp Hl Hh. unfold detectConfigDir.
  apply emits_tryCatch; [|intros e; apply emits_ret].
  apply emits_bind; [now apply runCommand_emits|]. intros checkNew.
  destruct (JsString.includes "exists" (cmd_stdout checkNew)); [apply emits_ret|].
  apply emits_bind; [now apply runCommand_emits|]. intros checkLegacy.
  destruct (JsString.includes "exists" (cmd_stdout checkLegacy)); apply emits_ret.
Qed.

Lemma detectConfigDir_known : ensures knownLayout (detectConfigDir imports sandbox).
Proof.
  unfold detectConfigDir.
  apply ensures_tryCatch; [|intros e; now apply ensures_ret].
  eapply ensures_bind; [apply ensures_any|]. intros checkNew _.
  destruct (JsString.includes "exists" (cmd_stdout checkNew)).
  - apply ensures_ret. now left.
  - eapply ensures_bind; [apply ensures_any|]. intros checkLegacy _.
    destruct (JsString.includes "exists" (cmd_stdout checkLegacy)).
    + apply ensures_ret. now right.
    + now apply ensures_ret.
Qed.

Lemma cronConfigDir_emits (P : Event -> Prop) :
  P (StartProcess primaryProbeCmd) -> P (StartProcess legacyProbeCmd) ->
  (forall ev, onHandle ev -> P ev) ->
  emits (Forall P) (cronConfigDir imports sandbox).
Proof.
  intros Hp Hl Hh. unfold cronConfigDir.
  apply emits_bind; [now apply runCommand_emits|]. intros checkNew.
  destruct (JsString.includes "exists" (cmd_stdout checkNew)); [apply emits_ret|].
  apply emits_bind; [now apply runCommand_emits|]. intros checkLegacy.
  destruct (JsString.includes "exists" (cmd_stdout checkLegacy)); [apply emits_ret|].
  apply emits_bind; [apply emits_log|]. intros _. apply emits_ret.
Qed.

Lemma cronConfigDir_known : ensures knownCronLayout (cronConfigDir imports sandbox).
Proof.
  unfold cronConfigDir.
  eapply ensures_bind; [apply ensures_any|]. intros checkNew _.
  destruct (JsString.includes "exists" (cmd_stdout checkNew)).
  - apply ensures_ret. now left.
  - eapply ensures_bind; [apply ensures_any|]. intros checkLegacy _.
    destruct (JsString.includes "exists" (cmd_stdout checkLegacy)).
    + apply ensures_ret. now right.
    + eapply ensures_bind; [apply ensures_any|]. intros _ _. now apply ensures_ret.
Qed.

Lemma launchSync_emits (P : Event -> Prop) (syncCmd : string) :
  P (StartProcess syncCmd) -> emits (Forall P) (launchSync sandbox syncCmd).
Proof.
  intros Hs. unfold launchSync.
  apply emits_tryCatch; [|intros e; apply emits_ret].
  apply emits_bind; [now apply emits_await|]. intros _. apply emits_ret.
Qed.

Lemma launchSync_one_call (syncCmd : string) (st : State W) :
  callsSince st (snd (launchSync sandbox syncCmd st)) [StartProcess syncCmd].
Proof.
  unfold launchSync, tryCatch, bind, await, ret, callsSince.
  destruct (startProcess sandbox syncCmd (world st)) as [[proc|e] w1]; reflexivity.
Qed.

Lemma pollOnce_emits (P : Event -> Prop) (pollIntervalMs : Z) :
  P (SetTimeout pollIntervalMs) -> P (StartProcess markerReadCmd) ->
  (forall ev, onHandle ev -> P ev) ->
  emits (Forall P) (pollOnce imports sandbox pollIntervalMs).
Proof.
  intros Ht Hr Hh. unfold pollOnce.
  apply emits_bind; [now apply emits_await|]. intros _.
  apply emits_tryCatch; [|intros e; apply emits_ret].
  apply emits_bind; [now apply runCommand_emits|]. intros ts. cbv zeta.
  destruct (validTimestamp (JsString.trim (cmd_stdout ts))); apply emits_ret.
Qed.

Lemma pollLoop_emits (P : Event -> Prop) (pollIntervalMs : Z) (remaining : nat) :
  P (SetTimeout pollIntervalMs) -> P (StartProcess markerReadCmd) ->
  (forall ev, onHandle ev -> P ev) ->
  emits (Forall P) (pollLoop imports sandbox pollIntervalMs remaining).
Proof.
  intros Ht Hr Hh. induction remaining as [|n IH]; cbn [pollLoop]; [apply emits_ret|].
  apply emits_bind; [now apply pollOnce_emits|].
  intros [result|]; [apply emits_ret | exact IH].
Qed.

Lemma pollLoop_sleeps (pollIntervalMs : Z) (remaining : nat) :
  atMost isSleep remaining (pollLoop imports sandbox pollIntervalMs remaining).
Proof.
  intros st.
  destruct (pollLoop_calls imports sandbox pollIntervalMs remaining st)
    as (polls & evs & Hle & E & [Hs _]).
  exists evs. split; [exact E|].
  unfold count. rewrite Hs, repeat_length. exact Hle.
Qed.

Lemma mountR2Storage_emits_exact (P : Event -> Prop) (env : MoltbotEnv) :
  (forall ev, onHandle ev -> P ev) ->
  P (StartProcess mountProbeCmd) ->
  P (mountCall imports env) ->
  emits (Forall P) (mountR2Storage imports sandbox env).
Proof.
  intros Hhandle Hstart Hmount. unfold mountR2Storage.
  destruct (credentialsMissing env).
  - apply emits_bind; [apply emits_log|]. intros _. apply emits_ret.
  - apply emits_bind; [now apply isR2Mounted_emits|]. intros [|].
    + apply emits_bind; [apply emits_log|]. intros _. apply emits_ret.
    + apply emits_tryCatch.
      * apply emits_bind; [apply emits_log|]. intros _.
        apply emits_bind; [apply emits_await, Hmount|]. intros _.
        apply emits_bind; [apply emits_log|]. intros _. apply emits_ret.
      * intros e. cbv zeta. apply emits_bind; [apply emits_log|]. intros _.
        apply emits_bind; [now apply isR2Mounted_emits|].
        intros [|]; (apply emits_bind; [apply emits_log|]); intros _; apply emits_ret.
Qed.

(** Every call of a blocking sync satisfies [P] when the calls of its five
    stages do. *)
Lemma syncToR2_emits (P : Event -> Prop) (env : MoltbotEnv) (pollIntervalMs maxPolls : Z) :
  (forall ev, onHandle ev -> P ev) ->
  P (StartProcess mountProbeCmd) ->
  P (mountCall imports env) ->
  P (StartProcess primaryProbeCmd) -> P (StartProcess legacyProbeCmd) ->
  P (StartProcess primaryCopyCmd) -> P (StartProcess legacyCopyCmd) ->
  P (SetTimeout pollIntervalMs) -> P (StartProcess markerReadCmd) ->
  emits (Forall P) (syncToR2 imports sandbox env pollIntervalMs maxPolls).
Proof.
  intros Hh Hprobe Hmount Hp Hl Hcp Hcl Ht Hr. unfold syncToR2.
  destruct (credentialsMissing env); [apply emits_ret|].
  apply emits_bind.
  { apply mountR2Storage_emits_exact; assumption. }
  intros [|]; cbn [negb]; [|apply emits_ret].
  eapply emits_bind_ensures;
    [apply detectConfigDir_known | now apply detectConfigDir_emits |].
  intros [aborted|configDir] Hknown; [apply emits_ret|]. cbv zeta.
  apply emits_bind.
  { apply launchSync_emits. destruct Hknown as [-> | ->]; assumption. }
  intros [failed|]; [apply emits_ret | now apply pollLoop_emits].
Qed.

End EntryPointCalls.

(** * More on [runCommand] and the copy command *)



(** * More on the blocking sync *)

Lemma lateResult_not_early (r : SyncResult) :
  lateResult r -> r <> notConfigured /\ r <> mountFailed.
Proof.
  intros [-> | [(e & ->) | [(e & ->) | [-> | (out & -> & _)]]]]; split; discriminate.
Qed.

Section Blocking.
Context {W : Type} (imports : Imports W) (sandbox : Sandbox W).

Lemma detectConfigDir_late :
  settles (fun r => match r with inl result => lateResult result | inr _ => True end)
    (detectConfigDir imports sandbox).
Proof.
  apply settles_tryCatch.
  - eapply ensures_bind; [apply ensures_any|]. intros checkNew _.
    destruct (JsString.includes "exists" (cmd_stdout checkNew)).
    + now apply ensures_ret.
    + eapply ensures_bind; [apply ensures_any|]. intros checkLegacy _.
      destruct (JsString.includes "exists" (cmd_stdout checkLegacy)).
      * now apply ensures_ret.
      * apply ensures_ret. now left.
  - intros e. apply settles_ret. right. left. now exists e.
Qed.

Lemma launchSync_late (syncCmd : string) :
  settles (fun r => match r with Some result => lateResult result | None => True end)
    (launchSync sandbox syncCmd).
Proof.
  apply settles_tryCatch.
  - eapply ensures_bind; [apply ensures_any|]. intros _ _. now apply ensures_ret.
  - intros e. apply settles_ret. right. right. left. now exists e.
Qed.

Lemma pollOnce_late (pollIntervalMs : Z) :
  settles (fun r => match r with Some result => lateResult result | None => True end)
    (pollOnce imports sandbox pollIntervalMs).
Proof.
  eapply settles_bind; [apply settles_sleep|]. intros _ _.
  apply settles_tryCatch.
  - eapply ensures_bind; [apply ensures_any|]. intros ts _. cbv zeta.
    destruct (validTimestamp (JsString.trim (cmd_stdout ts))) eqn:E.
    + apply ensures_ret. do 4 right. now exists (cmd_stdout ts).
    + now apply ensures_ret.
  - intros e. now apply settles_ret.
Qed.

Lemma pollLoop_late (pollIntervalMs : Z) (remaining : nat) :
  settles lateResult (pollLoop imports sandbox pollIntervalMs remaining).
Proof.
  induction remaining as [|n IH]; cbn [pollLoop].
  - apply settles_ret. do 3 right. now left.
  - eapply settles_bind; [apply pollOnce_late|].
    intros [result|] H; [now apply settles_ret | exact IH].
Qed.

Lemma syncToR2_mounted (env : MoltbotEnv) (pollIntervalMs maxPolls : Z) (st st1 : State W) :
  credentialsMissing env = false ->
  mountR2Storage imports sandbox env st = (Returns true, st1) ->
  exists r, fst (syncToR2 imports sandbox env pollIntervalMs maxPolls st) = Returns r
            /\ lateResult r.
Proof.
  intros Hcred Hmount. unfold syncToR2. rewrite Hcred.
  rewrite (bind_returns _ _ _ _ _ Hmount). cbn [negb].
  match goal with
  | |- context [fst (?m st1)] => assert (H : settles lateResult m)
  end.
  { eapply settles_bind; [apply detectConfigDir_late|].
    intros [aborted|configDir] H; [now apply settles_ret|]. cbv zeta.
    eapply settles_bind; [apply launchSync_late|].
    intros [failed|] H'; [now apply settles_ret | apply pollLoop_late]. }
  specialize (H st1).
  match goal with
  | |- context [fst (?m st1)] => destruct (fst (m st1)) as [r|e]
  end; [now exists r | contradiction].
Qed.

Lemma syncToR2_unmounted (env : MoltbotEnv) (pollIntervalMs maxPolls : Z) (st st1 : State W) :
  credentialsMissing env = false ->
  mountR2Storage imports sandbox env st = (Returns false, st1) ->
  syncToR2 imports sandbox env pollIntervalMs maxPolls st = (Returns mountFailed, st1).
Proof.
  intros Hcred Hmount. unfold syncToR2. rewrite Hcred.
  now rewrite (bind_returns _ _ _ _ _ Hmount).
Qed.

Lemma mountR2Storage_returns (env : MoltbotEnv) (st : State W) :
  exists b st1, mountR2Storage imports sandbox env st = (Returns b, st1).
Proof.
  destruct (settles_returns _ _ st (mountR2Storage_settles imports sandbox env))
    as (b & st1 & E & _).
  now exists b, st1.
Qed.

Lemma syncToR2_after_detect (env : MoltbotEnv) (pollIntervalMs maxPolls : Z)
    (st st1 st2 : State W) (configDir : string) :
  credentialsMissing env = false ->
  mountR2Storage imports sandbox env st = (Returns true, st1) ->
  detectConfigDir imports sandbox st1 = (Returns (inr configDir), st2) ->
  exists polls evs,
    (polls <= Z.to_nat maxPolls)%nat
    /\ callsSince st2 (snd (syncToR2 imports sandbox env pollIntervalMs maxPolls st))
         (StartProcess (buildSyncCmd configDir) :: evs)
    /\ pollEvents pollIntervalMs polls evs.
Proof.
  intros Hcred Hmount Hdetect. unfold syncToR2. rewrite Hcred.
  rewrite (bind_returns _ _ _ _ _ Hmount). cbn [negb].
  rewrite (bind_returns _ _ _ _ _ Hdetect). cbv zeta.
  pose proof (launchSync_one_call sandbox (buildSyncCmd configDir) st2) as E1.
  unfold bind.
  destruct (launchSync sandbox (buildSyncCmd configDir) st2) as [[[failed|]|e] st3];
    cbn [snd] in *.
  - exists 0%nat, []. split; [lia|]. split; [exact E1 | now split].
  - destruct (pollLoop_calls imports sandbox pollIntervalMs (Z.to_nat maxPolls) st3)
      as (polls & evs & Hle & E2 & P).
    exists polls, evs. split; [exact Hle|]. split; [|exact P].
    change (StartProcess (buildSyncCmd configDir) :: evs)
      with ([StartProcess (buildSyncCmd configDir)] ++ evs)%list.
    now apply callsSince_trans with st3.
  - exists 0%nat, []. split; [lia|]. split; [exact E1 | now split].
Qed.

End Blocking.

Lemma markerRead_not_legacyProbe : markerReadCmd <> legacyProbeCmd.
Proof. discriminate. Qed.

Lemma pollEvents_no_legacy_probe (pollIntervalMs : Z) (polls : nat) (evs : list Event) :
  pollEvents pollIntervalMs polls evs -> ~ In legacyProbeCmd (startedCmds evs).
Proof.
  intros [_ Hs] HIn. rewrite Hs in HIn. apply repeat_spec in HIn.
  now apply markerRead_not_legacyProbe.
Qed.

Lemma mountProbe_not_copy : isCopyLaunch (StartProcess mountProbeCmd) = false.
Proof. reflexivity. Qed.

Lemma mountR2Storage_bounded_calls_aux {W : Type} (imports : Imports W)
    (sandbox : Sandbox W) (env : MoltbotEnv) (st : State W) :
  exists evs,
    callsSince st (snd (mountR2Storage imports sandbox env st)) evs
    /\ (count isMountBucket evs <= 1)%nat
    /\ count isCopyLaunch evs = 0%nat
    /\ count isSleep evs = 0%nat.
Proof.
  assert (Hp : forall evs, probeCalls evs -> count isCopyLaunch evs = 0%nat).
  { intros evs (rest & -> & F). unfold count. cbn.
    apply (onHandle_count isCopyLaunch rest); [|exact F].
    intros ev. destruct ev; cbn; auto; contradiction. }
  destruct (credentialsMissing env) eqn:Hcred.
  - exists []. unfold mountR2Storage. rewrite Hcred. cbn.
    split; [unfold callsSince; cbn; now rewrite app_nil_r|]. repeat split; lia.
  - destruct (mountR2Storage_cases imports sandbox env st Hcred)
      as (probe1 & P1 & [[_ E] | [[_ E] | (recheck & probe2 & P2 & _ & E)]]);
      eexists; (split; [exact E|]);
      rewrite ?count_app, ?(Hp _ P1), ?(Hp _ P2),
        ?(probeCalls_no_mount _ P1), ?(probeCalls_no_mount _ P2),
        ?(probeCalls_no_sleep _ P1), ?(probeCalls_no_sleep _ P2);
      cbn; repeat split; lia.
Qed.

(** X9: the calls of a blocking sync come from a fixed set.  It starts only
    the mount probe, the two layout probes, the copy command of one of the
    two known directories and the marker read; it mounts only with the
    options built from the environment; it waits on a timer only for
    [pollIntervalMs]. *)
Theorem syncToR2_calls_allowed :
  forall (W : Type) (imports : Imports W) (sandbox : Sandbox W) (env : MoltbotEnv)
         (pollIntervalMs maxPolls : Z) (st : State W),
  exists evs,
    callsSince st (snd (syncToR2 imports sandbox env pollIntervalMs maxPolls st)) evs
    /\ Forall (syncCall imports env pollIntervalMs) evs.
Proof.
  intros W imports sandbox env pollIntervalMs maxPolls st.
  apply syncToR2_emits; cbn; auto 10.
  intros ev. destruct ev; cbn; auto; contradiction.
Qed.

(** X10: in every run, a blocking sync invokes the mount primitive at most
    once, starts at most one copy command, and waits at most [maxPolls]
    poll intervals. *)
Theorem syncToR2_call_bounds :
  forall (W : Type) (imports : Imports W) (sandbox : Sandbox W) (env : MoltbotEnv)
         (pollIntervalMs maxPolls : Z) (st : State W),
  exists evs,
    callsSince st (snd (syncToR2 imports sandbox env pollIntervalMs maxPolls st)) evs
    /\ (count isMountBucket evs <= 1)%nat
    /\ (count isCopyLaunch evs <= 1)%nat
    /\ (count isSleep evs <= Z.to_nat maxPolls)%nat.
Proof.
  intros W imports sandbox env pollIntervalMs maxPolls st.
  unfold syncToR2.
  destruct (credentialsMissing env) eqn:Hcred.
  { exists []. split; [apply callsSince_refl|]. cbn. repeat split; lia. }
  destruct (mountR2Storage_bounded_calls_aux imports sandbox env st)
    as (evsM & EM & HMm & HMc & HMs).
  unfold bind at 1.
  destruct (mountR2Storage imports sandbox env st) as [[[|]|e] st1]; cbn [snd negb] in *.
  2,3: exists evsM; split; [exact EM|]; repeat split; lia.
  assert (D : emits (Forall (fun ev => isMountBucket ev = false /\ isCopyLaunch ev = false
                                       /\ isSleep ev = false))
                (detectConfigDir imports sandbox)).
  { apply detectConfigDir_emits; [now repeat split | now repeat split |].
    intros ev. destruct ev; cbn; auto; contradiction. }
  destruct (D st1) as (evsD & ED & FD).
  assert (HD : count isMountBucket evsD = 0%nat /\ count isCopyLaunch evsD = 0%nat
               /\ count isSleep evsD = 0%nat).
  { unfold count. clear ED. induction FD as [|ev evs (H1 & H2 & H3) _ (I1 & I2 & I3)];
      [now repeat split|]. cbn. rewrite H1, H2, H3. now repeat split. }
  destruct HD as (HDm & HDc & HDs).
  unfold bind at 1.
  destruct (detectConfigDir imports sandbox st1) as [[[aborted|configDir]|e] st2];
    cbn [snd] in *.
  1,3: exists (evsM ++ evsD)%list; (split; [now apply callsSince_trans with st1|]);
       rewrite !count_app; repeat split; lia.
  cbv zeta.
  pose proof (launchSync_one_call sandbox (buildSyncCmd configDir) st2) as EL.
  pose proof (count_one isCopyLaunch (StartProcess (buildSyncCmd configDir))) as HLc.
  unfold bind at 1.
  destruct (launchSync sandbox (buildSyncCmd configDir) st2) as [[[failed|]|e] st3];
    cbn [snd] in *.
  1,3: exists ((evsM ++ evsD) ++ [StartProcess (buildSyncCmd configDir)])%list;
       (split; [apply callsSince_trans with st2; [now apply callsSince_trans with st1|exact EL]|]);
       rewrite !count_app; cbn [count filter isMountBucket isSleep length] in *;
       repeat split; lia.
  assert (P : emits (Forall (fun ev => isMountBucket ev = false /\ isCopyLaunch ev = false))
                (pollLoop imports sandbox pollIntervalMs (Z.to_nat maxPolls))).
  { apply pollLoop_emits; [now split | now split |].
    intros ev. destruct ev; cbn; auto; contradiction. }
  destruct (pollLoop_calls imports sandbox pollIntervalMs (Z.to_nat maxPolls) st3)
    as (polls & evsP & Hle & EP & [HPs _]).
  destruct (P st3) as (evsP' & EP' & FP).
  assert (evsP' = evsP).
  { unfold callsSince in EP, EP'. rewrite EP in EP'. now apply app_inv_head in EP'. }
  subst evsP'.
  assert (HP : count isMountBucket evsP = 0%nat /\ count isCopyLaunch evsP = 0%nat).
  { unfold count. clear EP EP' HPs. induction FP as [|ev evs (H1 & H2) _ (I1 & I2)];
      [now split|]. cbn. rewrite H1, H2. now split. }
  destruct HP as (HPm & HPc).
  assert (HPn : count isSleep evsP = polls).
  { unfold count. now rewrite HPs, repeat_length. }
  exists (((evsM ++ evsD) ++ [StartProcess (buildSyncCmd configDir)]) ++ evsP)%list.
  split.
  { apply callsSince_trans with st3; [|exact EP].
    apply callsSince_trans with st2; [now apply callsSince_trans with st1 | exact EL]. }
  rewrite !count_app. cbn [count filter isMountBucket isSleep length] in *.
  repeat split; lia.
Qed.

(** X11: the results of a blocking sync.  [syncToR2] always returns one of
    seven results: not configured, mount failed, no config file, failed
    verification, failed launch, timed out, or success with a trimmed
    marker value that passed the test of the polling loop. *)
Theorem syncToR2_results :
  forall (W : Type) (imports : Imports W) (sandbox : Sandbox W) (env : MoltbotEnv)
         (pollIntervalMs maxPolls : Z) (st : State W),
  exists result,
    fst (syncToR2 imports sandbox env pollIntervalMs maxPolls st) = Returns result
    /\ (result = notConfigured \/ result = mountFailed \/ lateResult result).
Proof.
  intros W imports sandbox env pollIntervalMs maxPolls st.
  destruct (credentialsMissing env) eqn:Hcred.
  - exists notConfigured. unfold syncToR2. rewrite Hcred. split; [reflexivity | now left].
  - destruct (mountR2Storage_returns imports sandbox env st) as ([|] & st1 & Hmount).
    + destruct (syncToR2_mounted imports sandbox env pollIntervalMs maxPolls st st1
                  Hcred Hmount) as (r & E & L).
      exists r. auto.
    + exists mountFailed.
      rewrite (syncToR2_unmounted imports sandbox env pollIntervalMs maxPolls st st1
                 Hcred Hmount).
      split; [reflexivity | auto].
Qed.

(** X12: the first two failures name their stage.  [syncToR2] returns the
    "not configured" result exactly when a credential is missing, and the
    "failed to mount" result exactly when the credentials are present and
    [mountR2Storage] returns [false]. *)
Theorem syncToR2_stage_of_failure :
  forall (W : Type) (imports : Imports W) (sandbox : Sandbox W) (env : MoltbotEnv)
         (pollIntervalMs maxPolls : Z) (st : State W),
    (fst (syncToR2 imports sandbox env pollIntervalMs maxPolls st) = Returns notConfigured
     <-> credentialsMissing env = true)
    /\ (fst (syncToR2 imports sandbox env pollIntervalMs maxPolls st) = Returns mountFailed
        <-> credentialsMissing env = false
            /\ fst (mountR2Storage imports sandbox env st) = Returns false).
Proof.
  intros W imports sandbox env pollIntervalMs maxPolls st.
  destruct (credentialsMissing env) eqn:Hcred.
  - unfold syncToR2. rewrite Hcred. cbn. split; split; auto.
    + discriminate.
    + intros [H _]. discriminate H.
  - destruct (mountR2Storage_returns imports sandbox env st) as ([|] & st1 & Hmount).
    + destruct (syncToR2_mounted imports sandbox env pollIntervalMs maxPolls st st1
                  Hcred Hmount) as (r & E & L).
      apply lateResult_not_early in L. destruct L as [L1 L2].
      rewrite E, Hmount. cbn [fst].
      split; split.
      * intros [= H]. contradiction.
      * discriminate.
      * intros [= H]. contradiction.
      * intros [_ H]. discriminate H.
    + rewrite (syncToR2_unmounted imports sandbox env pollIntervalMs maxPolls st st1
                 Hcred Hmount), Hmount. cbn [fst].
      split; split; auto; discriminate.
Qed.

(** X13: when the copy command cannot be started, [syncToR2] returns the
    "Sync error" failure at once, without polling.  Its details are the
    message of the error when the thrown value is an [Error], and
    "Unknown error" otherwise. *)
Theorem syncToR2_launch_failure :
  forall (W : Type) (imports : Imports W) (sandbox : Sandbox W) (env : MoltbotEnv)
         (pollIntervalMs maxPolls : Z) (st st1 st2 : State W) (configDir : string)
         (err : Thrown) (w3 : W),
    credentialsMissing env = false ->
    mountR2Storage imports sandbox env st = (Returns true, st1) ->
    detectConfigDir imports sandbox st1 = (Returns (inr configDir), st2) ->
    startProcess sandbox (buildSyncCmd configDir) (world st2) = (Throws err, w3) ->
    syncToR2 imports sandbox env pollIntervalMs maxPolls st
    = (Returns {| success := false;
                  lastSync := None;
                  error := Some "Sync error";
                  details := Some (match err with
                                   | ErrorObject message => message
                                   | OtherValue _ => "Unknown error"
                                   end) |},
       {| world := w3;
          calls := (calls st2 ++ [StartProcess (buildSyncCmd configDir)])%list;
          console := console st2 |}).
Proof.
  intros W imports sandbox env pollIntervalMs maxPolls st st1 st2 configDir err w3
         Hcred Hmount Hdetect Hstart.
  unfold syncToR2. rewrite Hcred.
  rewrite (bind_returns _ _ _ _ _ Hmount). cbn [negb].
  rewrite (bind_returns _ _ _ _ _ Hdetect). cbv zeta.
  unfold launchSync, tryCatch, bind, await, ret. rewrite Hstart. reflexivity.
Qed.

(** X14: primary layout.  When the probe of the primary path answers with
    the sentinel, the legacy path is not probed: the next command started
    is the copy command of [/root/.openclaw], and the only commands after
    it are reads of the marker, at most [maxPolls] of them. *)
Theorem syncToR2_primary_layout :
  forall (W : Type) (imports : Imports W) (sandbox : Sandbox W) (env : MoltbotEnv)
         (pollIntervalMs maxPolls : Z) (st st1 st2 : State W) (checkNew : CommandResult),
    credentialsMissing env = false ->
    mountR2Storage imports sandbox env st = (Returns true, st1) ->
    runCommand imports sandbox primaryProbeCmd 5000%Z st1 = (Returns checkNew, st2) ->
    JsString.includes "exists" (cmd_stdout checkNew) = true ->
    exists polls evs,
      (polls <= Z.to_nat maxPolls)%nat
      /\ callsSince st2 (snd (syncToR2 imports sandbox env pollIntervalMs maxPolls st))
           (StartProcess (buildSyncCmd "/root/.openclaw") :: evs)
      /\ pollEvents pollIntervalMs polls evs
      /\ ~ In legacyProbeCmd (startedCmds evs).
Proof.
  intros W imports sandbox env pollIntervalMs maxPolls st st1 st2 checkNew
         Hcred Hmount Hprobe Hexists.
  assert (Hdetect : detectConfigDir imports sandbox st1
                    = (Returns (inr "/root/.openclaw"), st2)).
  { unfold detectConfigDir. apply tryCatch_returns.
    now rewrite (bind_returns _ _ _ _ _ Hprobe), Hexists. }
  destruct (syncToR2_after_detect imports sandbox env pollIntervalMs maxPolls st st1 st2 _
              Hcred Hmount Hdetect) as (polls & evs & Hle & E & P).
  exists polls, evs. repeat split; try assumption; try apply P.
  now apply pollEvents_no_legacy_probe with pollIntervalMs polls.
Qed.

(** X15: legacy fallback.  When the probe of the primary path answers
    without the sentinel and the probe of the legacy path answers with it,
    the next command started is the copy command of [/root/.clawdbot],
    whose first step mirrors [/root/.clawdbot/] to
    [/data/moltbot/openclaw/]. *)
Theorem syncToR2_legacy_layout :
  forall (W : Type) (imports : Imports W) (sandbox : Sandbox W) (env : MoltbotEnv)
         (pollIntervalMs maxPolls : Z) (st st1 st2 st3 : State W)
         (checkNew checkLegacy : CommandResult),
    credentialsMissing env = false ->
    mountR2Storage imports sandbox env st = (Returns true, st1) ->
    runCommand imports sandbox primaryProbeCmd 5000%Z st1 = (Returns checkNew, st2) ->
    JsString.includes "exists" (cmd_stdout checkNew) = false ->
    runCommand imports sandbox legacyProbeCmd 5000%Z st2 = (Returns checkLegacy, st3) ->
    JsString.includes "exists" (cmd_stdout checkLegacy) = true ->
    (exists polls evs,
       (polls <= Z.to_nat maxPolls)%nat
       /\ callsSince st3 (snd (syncToR2 imports sandbox env pollIntervalMs maxPolls st))
            (StartProcess (buildSyncCmd "/root/.clawdbot") :: evs)
       /\ pollEvents pollIntervalMs polls evs)
    /\ JsString.includes "/root/.clawdbot/ /data/moltbot/openclaw/ && "
         (buildSyncCmd "/root/.clawdbot") = true.
Proof.
  intros W imports sandbox env pollIntervalMs maxPolls st st1 st2 st3 checkNew checkLegacy
         Hcred Hmount Hprobe Habsent Hlegacy Hexists.
  split; [|reflexivity].
  assert (Hdetect : detectConfigDir imports sandbox st1
                    = (Returns (inr "/root/.clawdbot"), st3)).
  { unfold detectConfigDir. apply tryCatch_returns.
    rewrite (bind_returns _ _ _ _ _ Hprobe), Habsent.
    now rewrite (bind_returns _ _ _ _ _ Hlegacy), Hexists. }
  exact (syncToR2_after_detect imports sandbox env pollIntervalMs maxPolls st st1 st3 _
           Hcred Hmount Hdetect).
Qed.

(** X16: a marker read that throws is not an error.  The loop goes on to
    its remaining iterations from the state the failed read left. *)
Theorem pollLoop_read_throws :
  forall (W : Type) (imports : Imports W) (sandbox : Sandbox W) (pollIntervalMs : Z)
         (remaining : nat) (st st' : State W) (err : Thrown),
    runCommand imports sandbox markerReadCmd 10000%Z (slept imports pollIntervalMs st)
    = (Throws err, st') ->
    pollLoop imports sandbox pollIntervalMs (S remaining) st
    = pollLoop imports sandbox pollIntervalMs remaining st'.
Proof.
  intros W imports sandbox pollIntervalMs remaining st st' err Hread.
  cbn [pollLoop].
  assert (E : pollOnce imports sandbox pollIntervalMs st = (Returns None, st')).
  { rewrite pollOnce_spec. unfold markerRead. now rewrite Hread. }
  now rewrite (bind_returns _ _ _ _ _ E).
Qed.

(** X17: with a poll budget of zero or less, a blocking sync that has
    started the copy command returns "Sync timed out" at once: it neither
    waits nor reads the marker. *)
Theorem syncToR2_no_poll_budget :
  forall (W : Type) (imports : Imports W) (sandbox : Sandbox W) (env : MoltbotEnv)
         (pollIntervalMs maxPolls : Z) (st st0 : State W),
    beforePolling imports sandbox env st = Some st0 ->
    (maxPolls <= 0)%Z ->
    syncToR2 imports sandbox env pollIntervalMs maxPolls st = (Returns timedOut, st0).
Proof.
  intros W imports sandbox env pollIntervalMs maxPolls st st0 Hstart Hle.
  rewrite (syncToR2_polling imports sandbox pollIntervalMs env maxPolls st st0 Hstart).
  replace (Z.to_nat maxPolls) with 0%nat by lia. reflexivity.
Qed.

(** * The marker value *)

Lemma trimStart_pad (pad s : string) :
  allWhiteSpace pad = true -> JsString.trimStart (pad ++ s) = JsString.trimStart s.
Proof.
  induction pad as [|c pad IH]; cbn; intros H; [reflexivity|].
  apply andb_prop in H. destruct H as [Hc Hr]. rewrite Hc. now apply IH.
Qed.

Lemma trimStart_id (s : string) :
  JsString.notWhiteSpace (JsString.firstChar s) -> JsString.trimStart s = s.
Proof. destruct s as [|c s]; cbn; [reflexivity|]. now intros ->. Qed.

Lemma trimEnd_all (pad : string) :
  allWhiteSpace pad = true -> JsString.trimEnd pad = "".
Proof.
  induction pad as [|c pad IH]; cbn; intros H; [reflexivity|].
  apply andb_prop in H. destruct H as [Hc Hr]. now rewrite (IH Hr), Hc.
Qed.

Lemma trimEnd_pad (s pad : string) :
  allWhiteSpace pad = true -> JsString.trimEnd (s ++ pad) = JsString.trimEnd s.
Proof.
  intros H. induction s as [|c s IH]; cbn; [now apply trimEnd_all | now rewrite IH].
Qed.

Lemma trimEnd_id (s : string) :
  JsString.notWhiteSpace (JsString.lastChar s) -> JsString.trimEnd s = s.
Proof.
  induction s as [|c s IH]; [reflexivity|].
  destruct s as [|c' s'].
  - cbn. now intros ->.
  - intros H. change (JsString.lastChar (String c (String c' s')))
      with (JsString.lastChar (String c' s')) in H.
    cbn [JsString.trimEnd] in *. now rewrite (IH H).
Qed.

Lemma isDigit_not_whiteSpace (c : ascii) :
  JsString.isDigit c = true -> JsString.isWhiteSpace c = false.
Proof.
  destruct c as [[] [] [] [] [] [] [] []]; vm_compute; congruence.
Qed.

Lemma trim_padded (pad1 v pad2 : string) :
  allWhiteSpace pad1 = true -> allWhiteSpace pad2 = true ->
  JsString.beginsWithDate v -> JsString.notWhiteSpace (JsString.lastChar v) ->
  JsString.trim (pad1 ++ v ++ pad2) = v.
Proof.
  intros H1 H2 Hdate Hlast. unfold JsString.trim.
  rewrite (trimStart_pad pad1 _ H1).
  rewrite trimStart_id.
  - rewrite (trimEnd_pad v pad2 H2). now apply trimEnd_id.
  - destruct Hdate as (y1 & y2 & y3 & y4 & m1 & m2 & d1 & d2 & rest & -> & F).
    inversion F; subst. cbn. now apply isDigit_not_whiteSpace.
Qed.

(** X18: white space around the marker value is ignored.  When a marker
    read yields a value that begins with a date and does not end with
    white space, possibly preceded and followed by white space (such as the
    newline that [date] writes), the poll succeeds with exactly that
    value. *)
Theorem pollOnce_padded_marker :
  forall (W : Type) (imports : Imports W) (sandbox : Sandbox W) (pollIntervalMs : Z)
         (st st' : State W) (ts : CommandResult) (pad1 v pad2 : string),
    runCommand imports sandbox markerReadCmd 10000%Z (slept imports pollIntervalMs st)
    = (Returns ts, st') ->
    cmd_stdout ts = pad1 ++ v ++ pad2 ->
    allWhiteSpace pad1 = true ->
    allWhiteSpace pad2 = true ->
    JsString.beginsWithDate v ->
    JsString.notWhiteSpace (JsString.lastChar v) ->
    pollOnce imports sandbox pollIntervalMs st
    = (Returns (Some {| success := true; lastSync := Some v; error := None;
                        details := None |}), st').
Proof.
  intros W imports sandbox pollIntervalMs st st' ts pad1 v pad2
         Hread Hout H1 H2 Hdate Hlast.
  pose proof (trim_padded pad1 v pad2 H1 H2 Hdate Hlast) as Htrim.
  rewrite <- Hout in Htrim.
  assert (Hvalid : validTimestamp (JsString.trim (cmd_stdout ts)) = true).
  { rewrite Htrim. apply validTimestamp_of_shape; [|exact Hdate].
    destruct Hdate as (y1 & y2 & y3 & y4 & m1 & m2 & d1 & d2 & rest & -> & _).
    discriminate. }
  rewrite (pollOnce_finds imports sandbox pollIntervalMs st st' ts Hread Hvalid).
  now rewrite Htrim.
Qed.

(** X19: the success test of the polling loop accepts exactly the strings
    that begin with four digits, a hyphen, two digits, a hyphen and two
    digits; its emptiness guard never decides. *)
Theorem validTimestamp_iff :
  forall s : string,
    (validTimestamp s = true <-> JsString.beginsWithDate s)
    /\ validTimestamp s = JsString.matchesDatePrefix s.
Proof.
  intros s. split.
  - split.
    + intros H. now apply validTimestamp_shape in H.
    + intros H. apply validTimestamp_of_shape; [|exact H].
      destruct H as (y1 & y2 & y3 & y4 & m1 & m2 & d1 & d2 & rest & -> & _).
      discriminate.
  - unfold validTimestamp. destruct s; reflexivity.
Qed.

(** * The fire-and-forget sync *)

Section Cron.
Context {W : Type} (imports : Imports W) (sandbox : Sandbox W).

Lemma atMost_log (kind : Event -> bool) (line : list string) :
  atMost (W := W) kind 0 (log line).
Proof.
  intros st. exists []. split; [|apply Nat.le_refl].
  unfold callsSince. cbn. now rewrite app_nil_r.
Qed.

Lemma atMost_await {A : Type} (kind : Event -> bool) (ev : Event)
    (call : W -> Outcome A * W) :
  atMost kind 1 (await ev call).
Proof.
  intros st. exists [ev]. unfold await.
  destruct (call (world st)) as [r w']. split; [reflexivity | apply count_one].
Qed.

Lemma mountR2Storage_no_copy_launch (env : MoltbotEnv) :
  atMost isCopyLaunch 0 (mountR2Storage imports sandbox env).
Proof.
  intros st.
  destruct (mountR2Storage_bounded_calls_aux imports sandbox env st)
    as (evs & E & _ & Hc & _).
  exists evs. split; [exact E | lia].
Qed.

Lemma cronConfigDir_no_copy_launch :
  atMost isCopyLaunch 0 (cronConfigDir imports sandbox).
Proof.
  apply atMost_none. apply cronConfigDir_emits; [reflexivity | reflexivity |].
  intros ev. destruct ev; cbn; auto; contradiction.
Qed.

(** The discovery of the cron handler resolves what the discovery of the
    blocking sync resolves. *)
Lemma detect_cron (st1 st2 : State W) (configDir : string) :
  detectConfigDir imports sandbox st1 = (Returns (inr configDir), st2) ->
  cronConfigDir imports sandbox st1 = (Returns (Some configDir), st2).
Proof.
  unfold detectConfigDir, cronConfigDir, tryCatch, bind, ret.
  destruct (runCommand imports sandbox primaryProbeCmd 5000%Z st1) as [[checkNew|e] s2];
    [|discriminate].
  destruct (JsString.includes "exists" (cmd_stdout checkNew)); [now intros [= <- <-]|].
  destruct (runCommand imports sandbox legacyProbeCmd 5000%Z s2) as [[checkLegacy|e] s3];
    [|discriminate].
  destruct (JsString.includes "exists" (cmd_stdout checkLegacy));
    [now intros [= <- <-] | discriminate].
Qed.

Lemma launchSync_started (syncCmd : string) (st2 st0 : State W) :
  launchSync sandbox syncCmd st2 = (Returns None, st0) ->
  exists proc,
    await (StartProcess syncCmd) (startProcess sandbox syncCmd) st2 = (Returns proc, st0).
Proof.
  unfold launchSync, tryCatch, bind, await, ret.
  destruct (startProcess sandbox syncCmd (world st2)) as [[proc|e] w3];
    [|discriminate].
  intros [= <-]. now exists proc.
Qed.

Lemma fireAndForgetSync_mounted (env : MoltbotEnv) (st st1 : State W) :
  credentialsMissing env = false ->
  mountR2Storage imports sandbox env st = (Returns true, st1) ->
  fireAndForgetSync imports sandbox env st
  = bind (cronConfigDir imports sandbox)
      (fun found =>
         match found with
         | None => ret tt
         | Some configDir =>
             await (StartProcess (buildSyncCmd configDir))
                   (startProcess sandbox (buildSyncCmd configDir)) ;;
             log ["[cron] Sync command started (fire-and-forget)"]
         end) st1.
Proof.
  intros Hcred Hmount. unfold fireAndForgetSync. rewrite Hcred.
  now rewrite (bind_returns _ _ _ _ _ Hmount).
Qed.

End Cron.

(** X20: the calls of a fire-and-forget sync come from a fixed set.  It
    starts only the mount probe, the two layout probes and the copy command
    of one of the two known directories, at most one copy command in a run;
    it never waits on a timer and never reads the marker. *)
Theorem fireAndForgetSync_calls_allowed :
  forall (W : Type) (imports : Imports W) (sandbox : Sandbox W) (env : MoltbotEnv)
         (st : State W),
    (exists evs,
       callsSince st (snd (fireAndForgetSync imports sandbox env st)) evs
       /\ Forall (cronCall imports env) evs)
    /\ (exists evs,
          callsSince st (snd (fireAndForgetSync imports sandbox env st)) evs
          /\ (count isCopyLaunch evs <= 1)%nat).
Proof.
  intros W imports sandbox env st.
  assert (Hh : forall ev, onHandle ev -> cronCall imports env ev).
  { intros ev. destruct ev; cbn; auto; contradiction. }
  split.
  - revert st. change (emits (Forall (cronCall imports env))
                         (fireAndForgetSync imports sandbox env)).
    unfold fireAndForgetSync.
    destruct (credentialsMissing env); [apply emits_log|].
    apply emits_bind.
    { apply mountR2Storage_emits_exact; cbn; auto. }
    intros [|]; cbn [negb]; [|apply emits_log].
    eapply emits_bind_ensures;
      [apply cronConfigDir_known | apply cronConfigDir_emits; cbn; auto 10 |].
    intros [configDir|] Hknown; [|apply emits_ret].
    apply emits_bind; [|intros _; apply emits_log].
    apply emits_await. destruct Hknown as [-> | ->]; cbn; auto 10.
  - revert st. change (atMost isCopyLaunch 1 (fireAndForgetSync imports sandbox env)).
    unfold fireAndForgetSync.
    destruct (credentialsMissing env).
    { apply atMost_weaken with 0%nat; [lia | apply atMost_log]. }
    apply (atMost_bind isCopyLaunch 0 1); [apply mountR2Storage_no_copy_launch|].
    intros [|]; cbn [negb].
    2: { apply atMost_weaken with 0%nat; [lia | apply atMost_log]. }
    apply (atMost_bind isCopyLaunch 0 1); [apply cronConfigDir_no_copy_launch|].
    intros [configDir|].
    + apply (atMost_bind isCopyLaunch 1 0); [apply atMost_await | intros _; apply atMost_log].
    + apply atMost_weaken with 0%nat; [lia | apply atMost_ret].
Qed.

(** X21: the two entry points share their first part.  From a state in
    which the blocking sync gets as far as its polling loop, the
    fire-and-forget sync returns normally after the same calls, leaving the
    same world: it stops where the blocking sync starts to poll. *)
Theorem fireAndForgetSync_matches_blocking :
  forall (W : Type) (imports : Imports W) (sandbox : Sandbox W) (env : MoltbotEnv)
         (st st0 : State W),
    beforePolling imports sandbox env st = Some st0 ->
    fst (fireAndForgetSync imports sandbox env st) = Returns tt
    /\ world (snd (fireAndForgetSync imports sandbox env st)) = world st0
    /\ calls (snd (fireAndForgetSync imports sandbox env st)) = calls st0.
Proof.
  intros W imports sandbox env st st0. unfold beforePolling.
  destruct (credentialsMissing env) eqn:Hcred; [discriminate|].
  destruct (mountR2Storage imports sandbox env st) as [[[|]|e] st1] eqn:Hmount;
    try discriminate.
  destruct (detectConfigDir imports sandbox st1) as [[[aborted|configDir]|e] st2]
    eqn:Hdetect; try discriminate.
  destruct (launchSync sandbox (buildSyncCmd configDir) st2) as [[[failed|]|e] st3]
    eqn:Hlaunch; try discriminate.
  intros [= <-].
  rewrite (fireAndForgetSync_mounted imports sandbox env st st1 Hcred Hmount).
  rewrite (bind_returns _ _ _ _ _ (detect_cron imports sandbox st1 st2 configDir Hdetect)).
  destruct (launchSync_started sandbox _ st2 st3 Hlaunch) as (proc & Hstart).
  rewrite (bind_returns _ _ _ _ _ Hstart).
  cbn. auto.
Qed.

(** X22: unlike the blocking sync, the fire-and-forget sync lets errors
    escape.  Once the storage is mounted, an error thrown by the probe of
    the primary path, by the probe of the legacy path, or by the start of
    the copy command is thrown to the caller. *)
Theorem fireAndForgetSync_propagates_throw :
  forall (W : Type) (imports : Imports W) (sandbox : Sandbox W) (env : MoltbotEnv)
         (st st1 : State W) (err : Thrown),
    credentialsMissing env = false ->
    mountR2Storage imports sandbox env st = (Returns true, st1) ->
    ((exists st2,
        runCommand imports sandbox primaryProbeCmd 5000%Z st1 = (Throws err, st2))
     \/ (exists checkNew st2 st3,
           runCommand imports sandbox primaryProbeCmd 5000%Z st1 = (Returns checkNew, st2)
           /\ JsString.includes "exists" (cmd_stdout checkNew) = false
           /\ runCommand imports sandbox legacyProbeCmd 5000%Z st2 = (Throws err, st3))
     \/ (exists configDir st2 w3,
           detectConfigDir imports sandbox st1 = (Returns (inr configDir), st2)
           /\ startProcess sandbox (buildSyncCmd configDir) (world st2)
              = (Throws err, w3))) ->
    fst (fireAndForgetSync imports sandbox env st) = Throws err.
Proof.
  intros W imports sandbox env st st1 err Hcred Hmount Hthrow.
  rewrite (fireAndForgetSync_mounted imports sandbox env st st1 Hcred Hmount).
  destruct Hthrow as [(st2 & H1)
                     | [(checkNew & st2 & st3 & H1 & A1 & H2)
                       | (configDir & st2 & w3 & Hdetect & Hstart)]].
  - assert (E : cronConfigDir imports sandbox st1 = (Throws err, st2)).
    { unfold cronConfigDir. now rewrite (bind_throws _ _ _ _ _ H1). }
    now rewrite (bind_throws _ _ _ _ _ E).
  - assert (E : cronConfigDir imports sandbox st1 = (Throws err, st3)).
    { unfold cronConfigDir. rewrite (bind_returns _ _ _ _ _ H1), A1.
      now rewrite (bind_throws _ _ _ _ _ H2). }
    now rewrite (bind_throws _ _ _ _ _ E).
  - rewrite (bind_returns _ _ _ _ _ (detect_cron imports sandbox st1 st2 configDir Hdetect)).
    unfold bind, await. rewrite Hstart. reflexivity.
Qed.

(** X23: the skips of the fire-and-forget sync.  When a credential is
    missing, when the storage cannot be mounted, or when both layout probes
    answer without the sentinel, it returns normally and starts no copy
    command. *)
Theorem fireAndForgetSync_skips :
  forall (W : Type) (imports : Imports W) (sandbox : Sandbox W) (env : MoltbotEnv)
         (st : State W),
    (credentialsMissing env = true
     \/ fst (mountR2Storage imports sandbox env st) = Returns false
     \/ (exists st1 st2 st3 checkNew checkLegacy,
           mountR2Storage imports sandbox env st = (Returns true, st1)
           /\ runCommand imports sandbox primaryProbeCmd 5000%Z st1 = (Returns checkNew, st2)
           /\ JsString.includes "exists" (cmd_stdout checkNew) = false
           /\ runCommand imports sandbox legacyProbeCmd 5000%Z st2
              = (Returns checkLegacy, st3)
           /\ JsString.includes "exists" (cmd_stdout checkLegacy) = false)) ->
    fst (fireAndForgetSync imports sandbox env st) = Returns tt
    /\ exists evs,
         callsSince st (snd (fireAndForgetSync imports sandbox env st)) evs
         /\ count isCopyLaunch evs = 0%nat.
Proof.
  intros W imports sandbox env st Hskip.
  destruct (credentialsMissing env) eqn:Hcred.
  { unfold fireAndForgetSync. rewrite Hcred. split; [reflexivity|].
    exists []. split; [|reflexivity]. unfold callsSince. cbn. now rewrite app_nil_r. }
  destruct Hskip as [H | [Hfalse | (st1 & st2 & st3 & checkNew & checkLegacy
                                    & Hmount & H1 & A1 & H2 & A2)]];
    [discriminate | |].
  - destruct (mountR2Storage_bounded_calls_aux imports sandbox env st)
      as (evs & E & _ & Hc & _).
    unfold fireAndForgetSync. rewrite Hcred. unfold bind.
    destruct (mountR2Storage imports sandbox env st) as [[[|]|e] st1];
      cbn [fst snd] in *; try discriminate.
    split; [reflexivity|]. exists evs. split; [|exact Hc].
    unfold callsSince in *. exact E.
  - destruct (mountR2Storage_bounded_calls_aux imports sandbox env st)
      as (evsM & EM & _ & HMc & _).
    rewrite Hmount in EM. cbn [snd] in EM.
    destruct (cronConfigDir_no_copy_launch imports sandbox st1) as (evsD & ED & HD).
    assert (E : cronConfigDir imports sandbox st1
                = (Returns None,
                   {| world := world st3; calls := calls st3;
                      console := (console st3
                                  ++ [["[cron] No config file found, skipping"]])%list |})).
    { unfold cronConfigDir. rewrite (bind_returns _ _ _ _ _ H1), A1.
      now rewrite (bind_returns _ _ _ _ _ H2), A2. }
    rewrite E in ED. cbn [snd] in ED.
    rewrite (fireAndForgetSync_mounted imports sandbox env st st1 Hcred Hmount).
    rewrite (bind_returns _ _ _ _ _ E). cbn [fst snd ret].
    split; [reflexivity|].
    exists (evsM ++ evsD)%list. split; [now apply callsSince_trans with st1|].
    rewrite count_app. lia.
Qed.

(** * Runs that meet the hypotheses above *)

Lemma mountR2Storage_already_mounted_witness :
  fst (mountR2Storage mockImports syncedSandbox createMockEnvWithR2 (fresh 0))
  = Returns true.
Proof.
  pose (st1 := snd (isR2Mounted mockImports syncedSandbox (fresh 0))).
  refine (proj1 (mountR2Storage_already_mounted nat mockImports syncedSandbox
                   createMockEnvWithR2 (fresh 0) st1 _ _));
    vm_compute; reflexivity.
Defined.

Lemma mountR2Storage_mounts_witness :
  fst (mountR2Storage mockImports mountableSandbox createMockEnvWithR2 (fresh 0))
  = Returns true.
Proof.
  pose (st1 := snd (isR2Mounted mockImports mountableSandbox (fresh 0))).
  refine (proj1 (mountR2Storage_mounts nat mockImports mountableSandbox
                   createMockEnvWithR2 (fresh 0) st1 1%nat _ _ _));
    vm_compute; reflexivity.
Defined.

Lemma mountR2Storage_false_after_attempt_witness :
  exists probe1 probe2,
    callsSince (fresh 0)
      (snd (mountR2Storage mockImports mountFailsSandbox createMockEnvWithR2 (fresh 0)))
      ((probe1 ++ [mountCall mockImports createMockEnvWithR2]) ++ probe2)
    /\ probeCalls probe1 /\ probeCalls probe2.
Proof.
  apply (mountR2Storage_false_after_attempt nat mockImports mountFailsSandbox
           createMockEnvWithR2 (fresh 0)); vm_compute; reflexivity.
Defined.

Lemma syncToR2_launch_failure_witness :
  exists st',
    syncToR2 mockImports launchFailsSandbox createMockEnvWithR2 2000 90 (fresh 0)
    = (Returns (failure "Sync error" (Some "Unknown error")), st').
Proof.
  pose (st1 := snd (mountR2Storage mockImports launchFailsSandbox createMockEnvWithR2
                      (fresh 0))).
  pose (st2 := snd (detectConfigDir mockImports launchFailsSandbox st1)).
  eexists.
  refine (syncToR2_launch_failure nat mockImports launchFailsSandbox createMockEnvWithR2
            2000 90 (fresh 0) st1 st2 "/root/.openclaw" (OtherValue "ENOSPC") 3%nat
            _ _ _ _);
    vm_compute; reflexivity.
Defined.

Lemma syncToR2_primary_layout_witness :
  let st1 := snd (mountR2Storage mockImports syncedSandbox createMockEnvWithR2 (fresh 0)) in
  let st2 := snd (runCommand mockImports syncedSandbox primaryProbeCmd 5000 st1) in
  exists polls evs,
    (polls <= Z.to_nat 90)%nat
    /\ callsSince st2
         (snd (syncToR2 mockImports syncedSandbox createMockEnvWithR2 2000 90 (fresh 0)))
         (StartProcess (buildSyncCmd "/root/.openclaw") :: evs)
    /\ pollEvents 2000 polls evs
    /\ ~ In legacyProbeCmd (startedCmds evs).
Proof.
  intros st1 st2.
  pose (found := {| cmd_stdout := "exists"; cmd_stderr := EmptyString;
                    cmd_status := "completed" |}).
  refine (syncToR2_primary_layout nat mockImports syncedSandbox createMockEnvWithR2
            2000 90 (fresh 0) st1 st2 found _ _ _ _);
    vm_compute; reflexivity.
Defined.

Lemma syncToR2_legacy_layout_witness :
  let st1 := snd (mountR2Storage mockImports legacySandbox createMockEnvWithR2 (fresh 0)) in
  let st2 := snd (runCommand mockImports legacySandbox primaryProbeCmd 5000 st1) in
  let st3 := snd (runCommand mockImports legacySandbox legacyProbeCmd 5000 st2) in
  exists polls evs,
    (polls <= Z.to_nat 90)%nat
    /\ callsSince st3
         (snd (syncToR2 mockImports legacySandbox createMockEnvWithR2 2000 90 (fresh 0)))
         (StartProcess (buildSyncCmd "/root/.clawdbot") :: evs)
    /\ pollEvents 2000 polls evs.
Proof.
  intros st1 st2 st3.
  pose (absent := {| cmd_stdout := EmptyString; cmd_stderr := EmptyString;
                     cmd_status := "completed" |}).
  pose (found := {| cmd_stdout := "exists"; cmd_stderr := EmptyString;
                    cmd_status := "completed" |}).
  refine (proj1 (syncToR2_legacy_layout nat mockImports legacySandbox createMockEnvWithR2
                   2000 90 (fresh 0) st1 st2 st3 absent found _ _ _ _ _ _));
    vm_compute; reflexivity.
Defined.

Lemma pollLoop_read_throws_witness :
  let st := startOfPolling catFailsSandbox in
  let st' := snd (runCommand mockImports catFailsSandbox markerReadCmd 10000
                    (slept mockImports 2000 st)) in
  pollLoop mockImports catFailsSandbox 2000 90 st
  = pollLoop mockImports catFailsSandbox 2000 89 st'.
Proof.
  intros st st'.
  refine (pollLoop_read_throws nat mockImports catFailsSandbox 2000 89 st st'
            (ErrorObject "cat failed") _).
  vm_compute. reflexivity.
Defined.

Lemma syncToR2_no_poll_budget_witness :
  syncToR2 mockImports syncedSandbox createMockEnvWithR2 2000 0 (fresh 0)
  = (Returns timedOut, startOfPolling syncedSandbox).
Proof.
  apply (syncToR2_no_poll_budget nat mockImports syncedSandbox createMockEnvWithR2
           2000 0 (fresh 0) (startOfPolling syncedSandbox));
    [vm_compute; reflexivity | lia].
Defined.

Lemma pollOnce_padded_marker_witness :
  exists st',
    pollOnce mockImports newlineSandbox 2000 (startOfPolling newlineSandbox)
    = (Returns (Some (synced timestamp)), st').
Proof.
  pose (st := startOfPolling newlineSandbox).
  pose (ts := {| cmd_stdout := timestamp ++ lf; cmd_stderr := EmptyString;
                 cmd_status := "completed" |}).
  eexists.
  refine (pollOnce_padded_marker nat mockImports newlineSandbox 2000 st _ ts
            EmptyString timestamp lf _ _ _ _ _ _).
  - vm_compute. reflexivity.
  - reflexivity.
  - reflexivity.
  - reflexivity.
  - apply matchesDatePrefix_begins. vm_compute. reflexivity.
  - vm_compute. reflexivity.
Defined.

Lemma fireAndForgetSync_matches_blocking_witness :
  fst (fireAndForgetSync mockImports syncedSandbox createMockEnvWithR2 (fresh 0))
  = Returns tt.
Proof.
  refine (proj1 (fireAndForgetSync_matches_blocking nat mockImports syncedSandbox
                   createMockEnvWithR2 (fresh 0) (startOfPolling syncedSandbox) _)).
  vm_compute. reflexivity.
Defined.

Lemma fireAndForgetSync_propagates_throw_witness :
  fst (fireAndForgetSync mockImports brokenProbeSandbox createMockEnvWithR2 (fresh 0))
  = Throws (ErrorObject "sandbox unavailable").
Proof.
  pose (st1 := snd (mountR2Storage mockImports brokenProbeSandbox createMockEnvWithR2
                      (fresh 0))).
  pose (st2 := snd (runCommand mockImports brokenProbeSandbox primaryProbeCmd 5000 st1)).
  refine (fireAndForgetSync_propagates_throw nat mockImports brokenProbeSandbox
            createMockEnvWithR2 (fresh 0) st1 (ErrorObject "sandbox unavailable") _ _ _).
  - vm_compute. reflexivity.
  - vm_compute. reflexivity.
  - left. exists st2. vm_compute. reflexivity.
Defined.

Lemma fireAndForgetSync_skips_witness :
  fst (fireAndForgetSync mockImports noConfigSandbox createMockEnvWithR2 (fresh 0))
  = Returns tt.
Proof.
  pose (st1 := snd (mountR2Storage mockImports noConfigSandbox createMockEnvWithR2 (fresh 0))).
  pose (st2 := snd (runCommand mockImports noConfigSandbox primaryProbeCmd 5000 st1)).
  pose (st3 := snd (runCommand mockImports noConfigSandbox legacyProbeCmd 5000 st2)).
  pose (absent := {| cmd_stdout := EmptyString; cmd_stderr := EmptyString;
                     cmd_status := "completed" |}).
  refine (proj1 (fireAndForgetSync_skips nat mockImports noConfigSandbox
                   createMockEnvWithR2 (fresh 0) _)).
  right. right. exists st1, st2, st3, absent, absent.
  repeat split; vm_compute; reflexivity.
Defined.
